(** * The flow router, the MCP JSON-RPC client, the tool catalog and the
      command line

    A shallow embedding of four Python modules of the CrewAI flows package:

    - [router/flow_router.py]: [FlowRouter] with [FLOW_PATTERNS], [__init__],
      [classify_intent], [_fallback_classification], [route], [execute_flow];
    - [shared/mcp_client.py]: [MCPClient] with [_get_next_request_id],
      [call_tool], [list_tools] and [ping];
    - [shared/mcp_tools.py]: [MCPToolWrapper] with [create_tool_func],
      [create_tool], [wrap_mcp_tools] and [get_tools_by_category];
    - [main.py]: [validate_environment] and [execute_query].

    Python values are an inductive type, exceptions are values of an error
    monad, [try]/[except] is a handler on that monad, floats are IEEE
    binary64 numbers (Rocq's primitive floats), the client's request counter
    is threaded as explicit state.  What the program calls but does not
    define is a section variable, so every theorem holds for every
    behaviour of those collaborators: the chat completion endpoint,
    [requests.post], [json.loads], [json.dumps], the five flow entry points,
    and from the interpreter [print], [str.lower], [str.strip], [repr] and
    the [.2f] presentation of a number.  A collaborator is a function of its
    arguments: [print] returns or raises by the text it is given, as an
    output stream does that cannot encode a character. *)

From Stdlib Require Import ZArith String Ascii List Bool Lia Floats Uint63.
From Stdlib Require Import DecimalString.
From stdpp Require Import base option gmap strings.
Import ListNotations.

Local Open Scope string_scope.
Local Open Scope Z_scope.

(** ** Python values *)

(** The values that [json.loads] produces and that the modules pass
    around.  A [dict] keeps its items in insertion order with distinct keys,
    as a Python [dict] does; keys are strings, as in JSON objects and in
    keyword arguments. *)
#[warnings="-register-all"]
Inductive pyval : Type :=
| PNone
| PBool (b : bool)
| PInt (z : Z)
| PFloat (f : float)
| PStr (s : string)
| PList (l : list pyval)
| PDict (items : list (string * pyval)).

(** [type(x).__name__] *)
Definition py_type_name (x : pyval) : string :=
  match x with
  | PNone => "NoneType"
  | PBool _ => "bool"
  | PInt _ => "int"
  | PFloat _ => "float"
  | PStr _ => "str"
  | PList _ => "list"
  | PDict _ => "dict"
  end.

(** ** Exceptions *)

(** The exception classes the modules raise, catch, or receive from their
    collaborators.  [RequestsJSONDecodeError] is
    [requests.exceptions.JSONDecodeError], a subclass of both
    [RequestException] and [json.JSONDecodeError]; [UserError n] stands for
    any other subclass of [Exception], by name. *)
Inductive exn_class : Type :=
| Exception
| ValueError
| TypeError
| AttributeError
| KeyError
| IndexError
| OverflowError
| ImportError
| RecursionError
| UnicodeEncodeError
| JSONDecodeError
| RequestException
| RequestsJSONDecodeError
| UserError (name : string).

(** An exception instance: its class, its [args] tuple and what [str(e)]
    returns. *)
Record exn : Type := Exn {
  exn_class_of : exn_class;
  exn_args : list pyval;
  exn_str : string
}.

(** [cls(msg)]: an exception built from one message string, for which
    [args == (msg,)] and [str(e) == msg]. *)
Definition new_exn (cls : exn_class) (msg : string) : exn :=
  Exn cls [PStr msg] msg.

(** [isinstance(e, requests.exceptions.RequestException)] *)
Definition is_RequestException (e : exn) : bool :=
  match exn_class_of e with
  | RequestException | RequestsJSONDecodeError => true
  | _ => false
  end.

(** [isinstance(e, json.JSONDecodeError)] *)
Definition is_JSONDecodeError (e : exn) : bool :=
  match exn_class_of e with
  | JSONDecodeError | RequestsJSONDecodeError => true
  | _ => false
  end.

(** ** The error monad *)

Inductive res (A : Type) : Type :=
| Ok (a : A)
| Raise (e : exn).
Arguments Ok {A} a.
Arguments Raise {A} e.

Definition bind {A B : Type} (m : res A) (k : A -> res B) : res B :=
  match m with
  | Ok a => k a
  | Raise e => Raise e
  end.

Declare Scope py_scope.
Delimit Scope py_scope with py.
Notation "'let!' x ':=' m 'in' k" := (bind m (fun x => k))
  (at level 10, x name, m at level 100, k at level 200) : py_scope.
Notation "'run!' m 'in' k" := (bind m (fun _ => k))
  (at level 10, m at level 100, k at level 200) : py_scope.
Local Open Scope py_scope.

(** [try: body / except Exception as e: handler e].  Every exception of the
    model is an instance of [Exception], so the handler sees all of them;
    what the handler raises propagates. *)
Definition try_except {A : Type} (body : res A) (handler : exn -> res A) : res A :=
  match body with
  | Ok a => Ok a
  | Raise e => handler e
  end.

(** [try: body / except C1 as e: h1 e / except C2 as e: h2 e ...]: the first
    clause whose class test accepts the exception handles it; an exception
    no clause accepts propagates. *)
Fixpoint try_except_clauses {A : Type} (body : res A)
    (clauses : list ((exn -> bool) * (exn -> res A))) : res A :=
  match body with
  | Ok a => Ok a
  | Raise e =>
      match clauses with
      | [] => Raise e
      | (accepts, handler) :: rest =>
          if accepts e then handler e
          else try_except_clauses (Raise e) rest
      end
  end.

(** [for x in xs: body x] for a body that returns nothing. *)
Fixpoint for_each {A : Type} (body : A -> res unit) (xs : list A) : res unit :=
  match xs with
  | [] => Ok tt
  | x :: rest => run! body x in for_each body rest
  end.

(** ** Strings *)

(** A [str] is held as the bytes of its UTF-8 encoding (a lone surrogate as
    the three bytes that the [surrogatepass] handler gives it).
    Concatenation, equality and the search for a text are the same on these
    bytes as on the characters.  What depends on the Unicode tables,
    [str.lower] and [str.strip], is left to the interpreter: it is a
    variable of the sections below. *)

(** [keyword in text] for two strings: the search for [keyword] as a
    contiguous part of [text], position by position. *)
Fixpoint str_in (keyword text : string) : bool :=
  orb (String.prefix keyword text)
      (match text with
       | EmptyString => false
       | String _ rest => str_in keyword rest
       end).

(** [", ".join(parts)] and friends *)
Fixpoint join (sep : string) (parts : list string) : string :=
  match parts with
  | [] => ""
  | [p] => p
  | p :: rest => p +:+ sep +:+ join sep rest
  end.

(** [s * n] *)
Fixpoint str_mul (s : string) (n : nat) : string :=
  match n with
  | O => ""
  | S n' => s +:+ str_mul s n'
  end.

(** [str(n)] for an integer: its decimal digits, with a leading minus sign
    for a negative number. *)
Definition str_of_int (z : Z) : string :=
  NilZero.string_of_int (Z.to_int z).

(** The double quote character, for the texts that contain it. *)
Definition dquote : string := String (ascii_of_nat 34) EmptyString.

(** The line feed. *)
Definition nl : string := String (ascii_of_nat 10) EmptyString.

(** ** Floats *)

(** The conversion of a Python [int] to a [float] that [/] performs on its
    left operand.  It is exact for [0 <= z < 2^53], the only integers the
    router converts (keyword counts). *)
Definition float_of_int (z : Z) : float :=
  PrimFloat.of_uint63 (Uint63.of_Z z).

(** [min(a, b)] on two floats: the builtin keeps its first argument unless a
    later one is strictly smaller. *)
Definition py_min (a b : float) : float :=
  if PrimFloat.ltb b a then b else a.

(** ** Operations on Python values *)

(** The texts of the exceptions that the interpreter raises are those of
    CPython 3.11. *)

(** [d[key]] lookup in the items of a [dict]. *)
Fixpoint dict_lookup {V : Type} (items : list (string * V)) (key : string) : option V :=
  match items with
  | [] => None
  | (k, v) :: rest => if String.eqb k key then Some v else dict_lookup rest key
  end.

(** [d[key] = v]: the value under an existing key is replaced in place, a
    new key is appended after the existing ones. *)
Fixpoint dict_set {V : Type} (items : list (string * V)) (key : string) (v : V)
    : list (string * V) :=
  match items with
  | [] => [(key, v)]
  | (k, w) :: rest =>
      if String.eqb k key then (k, v) :: rest else (k, w) :: dict_set rest key v
  end.

(** [obj.get(key, default)]: only a [dict] has the method. *)
Definition py_get (obj : pyval) (key : string) (default : pyval) : res pyval :=
  match obj with
  | PDict items =>
      Ok (match dict_lookup items key with Some v => v | None => default end)
  | _ =>
      Raise (new_exn AttributeError
               ("'" +:+ py_type_name obj +:+ "' object has no attribute 'get'"))
  end.

(** [x == s] for a string literal [s]. *)
Definition py_eq_str (x : pyval) (s : string) : bool :=
  match x with
  | PStr t => String.eqb t s
  | _ => false
  end.

(** [s in container] for a string literal [s]: a key of a [dict], an element
    of a [list], a substring of a [str]; the other values are not
    containers. *)
Definition py_str_in (s : string) (container : pyval) : res bool :=
  match container with
  | PDict items => Ok (existsb (fun kv => String.eqb (fst kv) s) items)
  | PList l => Ok (existsb (fun x => py_eq_str x s) l)
  | PStr t => Ok (str_in s t)
  | _ =>
      Raise (new_exn TypeError
               ("argument of type '" +:+ py_type_name container +:+ "' is not iterable"))
  end.

(** [obj[key]] for a string literal [key]: a [dict] is looked up, a [list]
    or [str] refuses a string index, the rest is not subscriptable. *)
Definition py_getitem_str (obj : pyval) (key : string) : res pyval :=
  match obj with
  | PDict items =>
      match dict_lookup items key with
      | Some v => Ok v
      | None => Raise (Exn KeyError [PStr key] ("'" +:+ key +:+ "'"))
      end
  | PList _ => Raise (new_exn TypeError "list indices must be integers or slices, not str")
  | PStr _ => Raise (new_exn TypeError "string indices must be integers, not 'str'")
  | _ =>
      Raise (new_exn TypeError ("'" +:+ py_type_name obj +:+ "' object is not subscriptable"))
  end.

(** [bool(x)] *)
Definition py_truthy (x : pyval) : bool :=
  match x with
  | PNone => false
  | PBool b => b
  | PInt z => negb (z =? 0)
  | PFloat f => negb (PrimFloat.eqb f 0%float)
  | PStr s => negb (String.eqb s "")
  | PList l => match l with [] => false | _ :: _ => true end
  | PDict items => match items with [] => false | _ :: _ => true end
  end.

(** The largest integer magnitude that still converts to a [float]:
    [int] values from [2^1024 - 2^970] on round up to infinity. *)
Definition float_overflow_bound : Z := 2 ^ 1024 - 2 ^ 970.

(** The replacement field [{x:.2f}] of an f-string.  Floats, ints and bools
    have the [f] presentation type, and [format_spec_2f] is the text the
    interpreter gives them; an int too large for a float overflows, [str]
    rejects the format code, and the values that inherit
    [object.__format__] reject any non-empty format specification. *)
Definition format_2f (format_spec_2f : pyval -> string) (x : pyval) : res string :=
  match x with
  | PFloat _ | PBool _ => Ok (format_spec_2f x)
  | PInt z =>
      if Z.abs z <? float_overflow_bound then Ok (format_spec_2f x)
      else Raise (new_exn OverflowError "int too large to convert to float")
  | PStr _ =>
      Raise (new_exn ValueError "Unknown format code 'f' for object of type 'str'")
  | PNone | PList _ | PDict _ =>
      Raise (new_exn TypeError
               ("unsupported format string passed to " +:+ py_type_name x +:+ ".__format__"))
  end.

(** [sum(xs)] of integers. *)
Definition py_sum (xs : list Z) : Z := fold_left Z.add xs 0.

(** [str(x)]: written out for the values whose text the theorems read;
    [repr] is the interpreter's formatting of floats, lists and dicts. *)
Definition py_str (repr : pyval -> string) (x : pyval) : string :=
  match x with
  | PNone => "None"
  | PBool true => "True"
  | PBool false => "False"
  | PInt z => str_of_int z
  | PStr s => s
  | PFloat _ | PList _ | PDict _ => repr x
  end.

(** ** router/flow_router.py *)

Module FlowRouter.

(** One entry of [FLOW_PATTERNS]. *)
Record flow_info : Type := FlowInfo {
  keywords : list string;
  description : string;
  examples : list string
}.

(** The class attribute [FLOW_PATTERNS], in the order of the dict literal. *)
Definition FLOW_PATTERNS : list (string * flow_info) :=
  [ ("campaign_setup_flow",
     FlowInfo
       ["create"; "launch"; "set up"; "new campaigns"; "bulk create"; "build";
        "setup"; "establish"]
       "Creating new campaigns, bulk campaign creation"
       ["Create 10 holiday campaigns with $5000 budget each";
        "Set up 5 campaigns for Black Friday";
        "Launch new campaigns for Q4";
        "Build 20 campaigns targeting millennials"]);
    ("optimization_flow",
     FlowInfo
       ["pause"; "optimize"; "adjust"; "improve"; "reduce spend";
        "underperforming"; "increase performance"; "scale"; "bid adjustment"]
       "Optimizing campaign performance, pausing underperformers, adjusting budgets"
       ["Pause all underperforming campaigns";
        "Optimize campaigns with high CPA";
        "Adjust bids for better performance";
        "Reduce spend on low-performing strategies"]);
    ("analytics_flow",
     FlowInfo
       ["report"; "analyze"; "show"; "performance"; "budget utilization";
        "metrics"; "dashboard"; "statistics"; "insights"; "data"]
       "Analyzing campaign performance, generating reports, showing metrics"
       ["Generate performance report for all campaigns";
        "Show budget utilization analysis";
        "Analyze campaign metrics for last 30 days";
        "Create dashboard of key performance indicators"]);
    ("compliance_flow",
     FlowInfo
       ["audit"; "permissions"; "access"; "security"; "compliance"; "users";
        "roles"; "governance"; "violation"]
       "Auditing user access, checking permissions, compliance reviews"
       ["Audit all user permissions for security review";
        "Check for users with admin access";
        "Find compliance violations in permissions";
        "Review user access patterns"]);
    ("creative_flow",
     FlowInfo
       ["creative"; "refresh"; "fatigue"; "assets"; "ads"; "banner"; "image";
        "video"; "copy"]
       "Managing creative assets, identifying refresh needs, creative fatigue analysis"
       ["Find all creatives that need refresh";
        "Analyze creative fatigue across campaigns";
        "Identify underperforming creatives";
        "Plan creative refresh strategy"]) ].

(** The arguments of [client.chat.completions.create]. *)
Record chat_request : Type := ChatRequest {
  model : string;
  messages : list (string * string);   (* role, content *)
  temperature : float;
  max_tokens : Z
}.

(** What the router reads of a completion: for each choice, its
    [message.content], which the API may leave [None]. *)
Record chat_response : Type := ChatResponse {
  choices : list (option string)
}.

(** The [OpenAI] client object, by the one method the router calls. *)
Record OpenAI_client : Type := OpenAIClient {
  chat_completions_create : chat_request -> res chat_response
}.

(** The attributes of a [FlowRouter] instance.  [api_key] has the type
    [Optional[str]] of the expression that [__init__] stores in it. *)
Record t : Type := Build {
  api_key : option string;
  client : OpenAI_client
}.

(** The dict that [route] returns. *)
Record routing_result : Type := RoutingResult {
  flow_name : pyval;
  confidence : pyval;
  query : string;
  flow_info_of : flow_info       (* description, keywords, examples *)
}.

(** The dict that [execute_flow] returns: the key [result] is present on
    success, the key [error] on failure. *)
Record envelope : Type := Envelope {
  routing : routing_result;
  result : option pyval;
  error : option string;
  success : bool
}.

(** [a or b] on two optional strings: [None] and the empty string are
    falsy. *)
Definition truthy (x : option string) : bool :=
  match x with
  | Some (String _ _) => true
  | _ => false
  end.

Definition py_or (a b : option string) : option string :=
  if truthy a then a else b.

(** [xs[0]] *)
Definition first_item (xs : list string) : res string :=
  match xs with
  | x :: _ => Ok x
  | [] => Raise (new_exn IndexError "list index out of range")
  end.

(** [flow_name not in self.FLOW_PATTERNS]: a string is looked up among the
    keys, a list or dict is unhashable, any other value is hashable and
    equal to no key. *)
Definition not_in_FLOW_PATTERNS (flow_name : pyval) : res bool :=
  match flow_name with
  | PStr s => Ok (negb (existsb (fun kv => String.eqb (fst kv) s) FLOW_PATTERNS))
  | PList _ => Raise (new_exn TypeError "unhashable type: 'list'")
  | PDict _ => Raise (new_exn TypeError "unhashable type: 'dict'")
  | _ => Ok true
  end.

(** [self.FLOW_PATTERNS.get(flow_name, {})] followed by the three
    [flow_info.get(..., default)] of [route]: the entry of the flow, or the
    empty description, keywords and examples. *)
Definition FLOW_PATTERNS_get (flow_name : pyval) : res flow_info :=
  match flow_name with
  | PStr s =>
      Ok (match dict_lookup FLOW_PATTERNS s with
          | Some info => info
          | None => FlowInfo [] "" []
          end)
  | PList _ => Raise (new_exn TypeError "unhashable type: 'list'")
  | PDict _ => Raise (new_exn TypeError "unhashable type: 'dict'")
  | _ => Ok (FlowInfo [] "" [])
  end.

(** The generator under [sum] of line 173: a [1] for every keyword that
    the operator [in] finds in the lower-cased query. *)
Definition keyword_score (query_lower : string) (info : flow_info) : Z :=
  py_sum (map (fun _ => 1) (List.filter (fun keyword => str_in keyword query_lower) (keywords info))).

(** The loop of lines 171-174. *)
Definition count_scores (query_lower : string) : list (string * Z) :=
  fold_left
    (fun scores (entry : string * flow_info) =>
       dict_set scores (fst entry) (keyword_score query_lower (snd entry)))
    FLOW_PATTERNS [].

(** The loop of the builtin [max]: a later item replaces the current one
    only when its key is strictly greater. *)
Fixpoint max_loop (best : string * Z) (rest : list (string * Z)) : string * Z :=
  match rest with
  | [] => best
  | item :: rest' => max_loop (if snd item >? snd best then item else best) rest'
  end.

(** [max(scores, key=scores.get)]: the keys of [scores] are visited in
    insertion order and compared by the value stored under each. *)
Definition max_by_score (scores : list (string * Z)) : res string :=
  match scores with
  | [] => Raise (new_exn ValueError "max() arg is an empty sequence")
  | first :: rest => Ok (fst (max_loop first rest))
  end.

(** [scores[best_flow]] *)
Definition scores_getitem (scores : list (string * Z)) (key : string) : res Z :=
  match dict_lookup scores key with
  | Some v => Ok v
  | None => Raise (Exn KeyError [PStr key] ("'" +:+ key +:+ "'"))
  end.

(** Line 181: [min(best_score / 3.0, 1.0) if best_score > 0 else 0.3]. *)
#[warnings="-inexact-float"]
Definition fallback_confidence (best_score : Z) : float :=
  if best_score >? 0
  then py_min (PrimFloat.div (float_of_int best_score) 3.0%float) 1.0%float
  else 0.3%float.

(** Lines 103-106: the description of the flows inside the prompt. *)
Definition flow_descriptions : res string :=
  let! lines :=
    fold_right
      (fun (entry : string * flow_info) acc =>
         let! example := first_item (examples (snd entry)) in
         let! rest := acc in
         Ok (("- " +:+ fst entry +:+ ": " +:+ description (snd entry) +:+ nl
              +:+ "  Keywords: " +:+ join ", " (firstn 5 (keywords (snd entry))) +:+ nl
              +:+ "  Example: " +:+ example) :: rest))
      (Ok []) FLOW_PATTERNS in
  Ok (join nl lines).

(** Lines 108-122: the prompt. *)
Definition build_prompt (descriptions query : string) : string :=
  "You are a query classifier for a campaign management system." +:+ nl
  +:+ "Classify the following user query into one of these flows:" +:+ nl
  +:+ nl
  +:+ descriptions +:+ nl
  +:+ nl
  +:+ "User Query: " +:+ dquote +:+ query +:+ dquote +:+ nl
  +:+ nl
  +:+ "Respond with a JSON object containing:" +:+ nl
  +:+ "- " +:+ dquote +:+ "flow" +:+ dquote
  +:+ ": The flow name (one of: campaign_setup_flow, optimization_flow, analytics_flow, compliance_flow, creative_flow)" +:+ nl
  +:+ "- " +:+ dquote +:+ "confidence" +:+ dquote
  +:+ ": A confidence score between 0.0 and 1.0" +:+ nl
  +:+ "- " +:+ dquote +:+ "reasoning" +:+ dquote
  +:+ ": Brief explanation of why this flow was chosen" +:+ nl
  +:+ nl
  +:+ "Example response:" +:+ nl
  +:+ "{" +:+ dquote +:+ "flow" +:+ dquote +:+ ": " +:+ dquote +:+ "campaign_setup_flow" +:+ dquote
  +:+ ", " +:+ dquote +:+ "confidence" +:+ dquote +:+ ": 0.95, "
  +:+ dquote +:+ "reasoning" +:+ dquote +:+ ": "
  +:+ dquote +:+ "Query asks to create new campaigns" +:+ dquote +:+ "}" +:+ nl.

(** Lines 102-122: the prompt for a query. *)
Definition classification_prompt (query : string) : res string :=
  let! descriptions := flow_descriptions in
  Ok (build_prompt descriptions query).

(** Lines 125-133: the request sent to the model. *)
#[warnings="-inexact-float"]
Definition classification_request (prompt : string) : chat_request :=
  ChatRequest "gpt-4"
    [ ("system", "You are a precise query classifier. Always respond with valid JSON.");
      ("user", prompt) ]
    0.1%float
    200.

(** The line of [=] signs that [route] prints: ['='*80]. *)
Definition rule : string := str_mul "=" 80.

Section WithCollaborators.

(** [str.lower] and [str.strip], by the Unicode tables of the
    interpreter. *)
Variable str_lower : string -> string.
Variable str_strip : string -> string.

(** [print(text)]: the line is written to [sys.stdout], or the write
    raises, as it does with [UnicodeEncodeError] when the encoding of the
    stream has no code for a character of the text. *)
Variable print : string -> res unit.

(** The interpreter's [repr] of floats, lists and dicts. *)
Variable repr : pyval -> string.

(** The text of [format(x, ".2f")] for a number [x]. *)
Variable format_spec_2f : pyval -> string.

(** [json.loads] on a string: the decoded value, or the exception the
    library raises ([JSONDecodeError] for a text that is not JSON,
    [ValueError] for an integer of more digits than the interpreter
    converts, [RecursionError] for a nesting too deep). *)
Variable json_loads : string -> res pyval.

(** The constructor of the [openai] package's client, by its [api_key]
    argument. *)
Variable OpenAI : option string -> OpenAI_client.

(** The entry points of the five flow modules.  A call stands for the
    [from flows.<module> import <name>] statement and the call that follows
    it: it returns the flow's result or raises. *)
Variable run_campaign_setup_flow : string -> res pyval.
Variable run_optimization_flow : string -> res pyval.
Variable run_analytics_flow : string -> res pyval.
Variable run_compliance_flow : string -> res pyval.
Variable run_creative_flow : string -> res pyval.

(** [FlowRouter.__init__]: [openai_api_key] is the argument, [environ] is
    [os.environ]. *)
Definition __init__ (openai_api_key : option string) (environ : gmap string string)
    : res t :=
  let api_key := py_or openai_api_key (environ !! "OPENAI_API_KEY") in
  if negb (truthy api_key) then
    Raise (new_exn ValueError
      "OpenAI API key is required. Set OPENAI_API_KEY environment variable or pass it to the constructor.")
  else
    Ok (Build api_key (OpenAI api_key)).

(** [FlowRouter._fallback_classification] *)
Definition _fallback_classification (query : string) : res (pyval * pyval) :=
  let query_lower := str_lower query in
  let scores := count_scores query_lower in
  let! best_flow := max_by_score scores in
  let! best_score := scores_getitem scores best_flow in
  let confidence := fallback_confidence best_score in
  Ok (PStr best_flow, PFloat confidence).

(** Line 135: [response.choices[0].message.content.strip()]. *)
Definition response_text (response : chat_response) : res string :=
  match choices response with
  | [] => Raise (new_exn IndexError "list index out of range")
  | Some content :: _ => Ok (str_strip content)
  | None :: _ => Raise (new_exn AttributeError "'NoneType' object has no attribute 'strip'")
  end.

(** Lines 147-149: the three lines that report an accepted reply. *)
Definition report_classification (flow_name confidence reasoning : pyval) : res unit :=
  run! print (nl +:+ "[Router] Classification: " +:+ py_str repr flow_name) in
  let! shown := format_2f format_spec_2f confidence in
  run! print ("[Router] Confidence: " +:+ shown) in
  print ("[Router] Reasoning: " +:+ py_str repr reasoning +:+ nl).

(** Lines 137-151, the part of the [try] block of [classify_intent] that
    follows the reading of the reply. *)
Definition accept_reply (result_text query : string) : res (pyval * pyval) :=
  let! result := json_loads result_text in
  let! flow_name := py_get result "flow" PNone in
  let! confidence := py_get result "confidence" (PFloat 0.5%float) in
  let! reasoning := py_get result "reasoning" (PStr "") in
  let! absent := not_in_FLOW_PATTERNS flow_name in
  if absent then _fallback_classification query
  else
    run! report_classification flow_name confidence reasoning in
    Ok (flow_name, confidence).

(** Lines 153-156, the [except] clause of [classify_intent]: two lines are
    printed, then the keywords decide. *)
Definition fall_back_after (e : exn) (query : string) : res (pyval * pyval) :=
  run! print ("[Router] Error during LLM classification: " +:+ exn_str e) in
  run! print "[Router] Falling back to keyword-based classification..." in
  _fallback_classification query.

(** [FlowRouter.classify_intent] *)
Definition classify_intent (self : t) (query : string) : res (pyval * pyval) :=
  let! prompt := classification_prompt query in
  try_except
    (let! response :=
       chat_completions_create (client self) (classification_request prompt) in
     let! result_text := response_text response in
     accept_reply result_text query)
    (fun e => fall_back_after e query).

(** Lines 102-135 on their own: the text the model answered for the query,
    or the exception raised on the way to it. *)
Definition llm_reply (self : t) (query : string) : res string :=
  let! prompt := classification_prompt query in
  let! response :=
    chat_completions_create (client self) (classification_request prompt) in
  response_text response.

(** [FlowRouter.route] *)
Definition route (self : t) (query : string) : res routing_result :=
  run! print (nl +:+ rule) in
  run! print "FLOW ROUTER" in
  run! print rule in
  run! print ("Query: " +:+ query) in
  run! print rule in
  let! classified := classify_intent self query in
  let flow_name := fst classified in
  let confidence := snd classified in
  let! flow_info := FLOW_PATTERNS_get flow_name in
  let result := RoutingResult flow_name confidence query flow_info in
  run! print (nl +:+ "[Router] Routing to: " +:+ py_str repr flow_name) in
  let! shown := format_2f format_spec_2f confidence in
  run! print ("[Router] Confidence: " +:+ shown) in
  run! print (rule +:+ nl) in
  Ok result.

(** The [if]/[elif] chain of lines 244-260. *)
Definition run_selected_flow (flow_name : pyval) (query : string) : res pyval :=
  if py_eq_str flow_name "campaign_setup_flow" then run_campaign_setup_flow query
  else if py_eq_str flow_name "optimization_flow" then run_optimization_flow query
  else if py_eq_str flow_name "analytics_flow" then run_analytics_flow query
  else if py_eq_str flow_name "compliance_flow" then run_compliance_flow query
  else if py_eq_str flow_name "creative_flow" then run_creative_flow query
  else Raise (new_exn ValueError ("Unknown flow: " +:+ py_str repr flow_name)).

(** [FlowRouter.execute_flow]: [route] is called before the [try] block. *)
Definition execute_flow (self : t) (query : string) : res envelope :=
  let! routing_result := route self query in
  let flow_name := flow_name routing_result in
  try_except
    (let! flow_result := run_selected_flow flow_name query in
     Ok (Envelope routing_result (Some flow_result) None true))
    (fun e => Ok (Envelope routing_result None (Some (exn_str e)) false)).

(** [FlowRouter.list_flows] *)
Definition list_flows (self : t) : list (string * flow_info) := FLOW_PATTERNS.

(** [create_router] *)
Definition create_router (openai_api_key : option string) (environ : gmap string string)
    : res t :=
  __init__ openai_api_key environ.

End WithCollaborators.

End FlowRouter.

(** ** shared/mcp_client.py *)

Module MCPClient.

(** The attributes of an [MCPClient] instance. *)
Record t : Type := Build {
  server_url : string;
  api_key : string;
  request_id : Z
}.

(** The arguments of [requests.post]. *)
Record http_request : Type := HttpRequest {
  url : string;
  json : pyval;
  headers : list (string * string);
  timeout : Z
}.

(** [MCPClient.__init__] *)
Definition __init__ (server_url api_key : string) : t :=
  Build server_url api_key 0.

(** [MCPClient._get_next_request_id]: the new identifier and the client
    after the increment. *)
Definition _get_next_request_id (self : t) : Z * t :=
  let self' := Build (server_url self) (api_key self) (request_id self + 1) in
  (request_id self', self').

(** The headers of lines 51-54. *)
Definition request_headers (self : t) : list (string * string) :=
  [ ("Content-Type", "application/json"); ("X-API-Key", api_key self) ].

(** The payload of lines 56-64. *)
Definition call_payload (tool_name : string) (arguments : pyval) (id : Z) : pyval :=
  PDict [ ("jsonrpc", PStr "2.0");
          ("method", PStr "tools/call");
          ("params", PDict [ ("name", PStr tool_name); ("arguments", arguments) ]);
          ("id", PInt id) ].

Section WithCollaborators.

(** [json.loads] on a string: the decoded value, or the exception the
    library raises ([JSONDecodeError] for a text that is not JSON,
    [ValueError] for an integer of more digits than the interpreter
    converts, [RecursionError] for a nesting too deep). *)
Variable json_loads : string -> res pyval.

(** Lines 67-74: [requests.post], [response.raise_for_status()] and
    [response.json()], as one exchange that yields the decoded body or the
    exception one of the three raises. *)
Variable requests_post : http_request -> res pyval.

(** The interpreter's [repr] of floats, lists and dicts. *)
Variable repr : pyval -> string.

(** [json.loads(x)]: a value that is not a string is refused with a
    [TypeError] before any decoding. *)
Definition loads (x : pyval) : res pyval :=
  match x with
  | PStr text => json_loads text
  | _ =>
      Raise (new_exn TypeError
               ("the JSON object must be str, bytes or bytearray, not " +:+ py_type_name x))
  end.

(** Lines 84-97: the result of a success response.  The inner [except]
    clause catches [json.JSONDecodeError] and nothing else. *)
Definition unwrap_result (result : pyval) : res pyval :=
  match result with
  | PDict items =>
      match dict_lookup items "content" with
      | Some (PList (first :: _)) =>
          let! type := py_get first "type" PNone in
          if py_eq_str type "text" then
            let! text_content := py_get first "text" (PStr "") in
            try_except_clauses (loads text_content)
              [ (is_JSONDecodeError, fun _ => Ok text_content) ]
          else Ok result
      | _ => Ok result
      end
  | _ => Ok result
  end.

(** Lines 76-99: what becomes of the decoded body. *)
Definition handle_response (data : pyval) : res pyval :=
  let! has_error := py_str_in "error" data in
  if has_error then
    let! error := py_getitem_str data "error" in
    let! error_msg := py_get error "message" (PStr "Unknown error") in
    let! error := py_getitem_str data "error" in
    let! error_code := py_get error "code" (PInt (-1)) in
    Raise (new_exn Exception
             ("MCP Error (" +:+ py_str repr error_code +:+ "): " +:+ py_str repr error_msg))
  else
    let! has_result := py_str_in "result" data in
    if has_result then
      let! result := py_getitem_str data "result" in
      unwrap_result result
    else Ok PNone.

(** [MCPClient.call_tool]: the outcome of the call and the client after
    it. *)
Definition call_tool (self : t) (tool_name : string) (arguments : pyval) (timeout : Z)
    : res pyval * t :=
  let headers := request_headers self in
  let (id, self') := _get_next_request_id self in
  let payload := call_payload tool_name arguments id in
  (try_except_clauses
     (let! data := requests_post (HttpRequest (server_url self') payload headers timeout) in
      handle_response data)
     [ (is_RequestException,
        fun e => Raise (new_exn Exception
                   ("HTTP Error calling MCP tool '" +:+ tool_name +:+ "': " +:+ exn_str e)));
       (is_JSONDecodeError,
        fun e => Raise (new_exn Exception
                   ("Invalid JSON response from MCP server: " +:+ exn_str e))) ],
   self').

End WithCollaborators.

(** The arguments of the [requests.post] of [list_tools], which passes no
    timeout. *)
Record list_request : Type := ListRequest {
  list_url : string;
  list_json : pyval;
  list_headers : list (string * string)
}.

(** The payload of lines 118-123. *)
Definition list_payload (id : Z) : pyval :=
  PDict [ ("jsonrpc", PStr "2.0");
          ("method", PStr "tools/list");
          ("params", PDict []);
          ("id", PInt id) ].

Section Listing.

(** Lines 126-132: [requests.post] without a timeout,
    [response.raise_for_status()] and [response.json()], as one exchange
    that yields the decoded body or the exception one of the three raises. *)
Variable requests_post_untimed : list_request -> res pyval.

(** The interpreter's [repr] of floats, lists and dicts. *)
Variable repr : pyval -> string.

(** Lines 134-140: what becomes of the decoded body.  The condition
    ["result" in data and "tools" in data["result"]] evaluates its second
    operand only when the first holds. *)
Definition handle_list_response (data : pyval) : res pyval :=
  let! has_error := py_str_in "error" data in
  if has_error then
    let! error := py_getitem_str data "error" in
    let! message := py_getitem_str error "message" in
    Raise (new_exn Exception ("MCP Error: " +:+ py_str repr message))
  else
    let! has_result := py_str_in "result" data in
    let! has_tools :=
      if has_result then
        let! result := py_getitem_str data "result" in
        py_str_in "tools" result
      else Ok false in
    if has_tools then
      let! result := py_getitem_str data "result" in
      py_getitem_str result "tools"
    else Ok (PList []).

(** [MCPClient.list_tools]: the outcome of the call and the client after
    it. *)
Definition list_tools (self : t) : res pyval * t :=
  let headers := request_headers self in
  let (id, self') := _get_next_request_id self in
  let payload := list_payload id in
  (try_except_clauses
     (let! data := requests_post_untimed (ListRequest (server_url self') payload headers) in
      handle_list_response data)
     [ (is_RequestException,
        fun e => Raise (new_exn Exception ("HTTP Error listing tools: " +:+ exn_str e))) ],
   self').

(** [MCPClient.ping] *)
Definition ping (self : t) : res bool * t :=
  let (listed, self') := list_tools self in
  (try_except (run! listed in Ok true) (fun _ => Ok false), self').

End Listing.

End MCPClient.
(** ** shared/mcp_tools.py *)

Module MCPToolWrapper.

(** A LangChain [Tool].  [func] receives the keyword arguments; the
    [MCPClient] it calls is the one object shared by every tool of a
    catalog, so its state goes in and comes out. *)
Record Tool : Type := MkTool {
  name : string;
  description : string;
  func : list (string * pyval) -> MCPClient.t -> res pyval * MCPClient.t
}.

Section WithCollaborators.

Variable json_loads : string -> res pyval.
Variable requests_post : MCPClient.http_request -> res pyval.
Variable repr : pyval -> string.

(** [json.dumps(x, indent=2)] *)
Variable json_dumps : pyval -> res string.

(** [isinstance(x, dict) or isinstance(x, list)] *)
Definition is_dict_or_list (x : pyval) : bool :=
  match x with
  | PDict _ | PList _ => true
  | _ => false
  end.

(** [MCPToolWrapper.create_tool_func]: the closure [tool_func]. *)
Definition create_tool_func (tool_name : string)
    : list (string * pyval) -> MCPClient.t -> res pyval * MCPClient.t :=
  fun kwargs mcp_client =>
    let (called, mcp_client') :=
      MCPClient.call_tool json_loads requests_post repr mcp_client tool_name (PDict kwargs) 30 in
    (try_except
       (let! result := called in
        if is_dict_or_list result then
          let! text := json_dumps result in
          Ok (PStr text)
        else Ok (PStr (py_str repr result)))
       (fun e => Ok (PStr ("Error executing " +:+ tool_name +:+ ": " +:+ exn_str e))),
     mcp_client').

(** [MCPToolWrapper.create_tool] *)
Definition create_tool (tool_name description : string) : Tool :=
  MkTool tool_name description (create_tool_func tool_name).

(** A dict literal: the items are inserted from left to right. *)
Definition dict_literal (items : list (string * Tool)) : gmap string Tool :=
  fold_left (fun m item => <[fst item := snd item]> m) items ∅.

(** The items of the dict literal of [wrap_mcp_tools], lines 79-315. *)
Definition catalog_items : list (string * Tool) :=
  [ ("find_campaigns", create_tool "find_campaigns"
       "Find campaigns by organization ID. Args: organization_id (int). Returns: List of campaigns with IDs, names, statuses, and budgets.");
    ("get_campaign_info", create_tool "get_campaign_info"
       "Get detailed campaign information including metrics. Args: campaign_id (int). Returns: Campaign details with spend, impressions, clicks, CTR, etc.");
    ("create_campaign", create_tool "create_campaign"
       "Create a new campaign. Args: name (str), organization_id (int), budget (float). Returns: Created campaign ID and details.");
    ("update_campaign", create_tool "update_campaign"
       "Update campaign properties. Args: campaign_id (int), updates (dict with fields like name, status, budget). Returns: Updated campaign details.");
    ("delete_campaign", create_tool "delete_campaign"
       "Delete a campaign. Args: campaign_id (int). Returns: Deletion confirmation.");
    ("update_campaign_budget", create_tool "update_campaign_budget"
       "Update campaign budget. Args: campaign_id (int), budget (float). Returns: Updated budget confirmation.");
    ("find_strategies", create_tool "find_strategies"
       "Find strategies by campaign ID. Args: campaign_id (int). Returns: List of strategies with IDs, names, and statuses.");
    ("get_strategy_info", create_tool "get_strategy_info"
       "Get detailed strategy information. Args: strategy_id (int). Returns: Strategy details with performance metrics.");
    ("create_strategy", create_tool "create_strategy"
       "Create a new strategy. Args: campaign_id (int), name (str), budget (float, optional). Returns: Created strategy ID and details.");
    ("update_strategy", create_tool "update_strategy"
       "Update strategy properties. Args: strategy_id (int), updates (dict with fields like name, status, bid). Returns: Updated strategy details.");
    ("delete_strategy", create_tool "delete_strategy"
       "Delete a strategy. Args: strategy_id (int). Returns: Deletion confirmation.");
    ("find_audience_segments", create_tool "find_audience_segments"
       "Find audience segments by organization. Args: organization_id (int). Returns: List of audience segments.");
    ("get_audience_segment_info", create_tool "get_audience_segment_info"
       "Get audience segment details. Args: segment_id (int). Returns: Segment details with targeting criteria.");
    ("create_audience_segment", create_tool "create_audience_segment"
       "Create a new audience segment. Args: name (str), organization_id (int), criteria (dict, optional). Returns: Created segment ID and details.");
    ("update_audience_segment", create_tool "update_audience_segment"
       "Update audience segment. Args: segment_id (int), updates (dict). Returns: Updated segment details.");
    ("delete_audience_segment", create_tool "delete_audience_segment"
       "Delete an audience segment. Args: segment_id (int). Returns: Deletion confirmation.");
    ("find_creatives", create_tool "find_creatives"
       "Find creatives by organization. Args: organization_id (int). Returns: List of creatives with IDs, names, types, and statuses.");
    ("get_creative_info", create_tool "get_creative_info"
       "Get creative details and performance. Args: creative_id (int). Returns: Creative details with CTR and engagement metrics.");
    ("create_creative", create_tool "create_creative"
       "Create a new creative. Args: name (str), organization_id (int), creative_type (str), content (dict). Returns: Created creative ID and details.");
    ("update_creative", create_tool "update_creative"
       "Update creative properties. Args: creative_id (int), updates (dict). Returns: Updated creative details.");
    ("delete_creative", create_tool "delete_creative"
       "Delete a creative. Args: creative_id (int). Returns: Deletion confirmation.");
    ("find_organizations", create_tool "find_organizations"
       "Find all organizations accessible to the user. Args: None. Returns: List of organizations with IDs and names.");
    ("get_organization_info", create_tool "get_organization_info"
       "Get organization details. Args: organization_id (int). Returns: Organization details including settings and limits.");
    ("find_users", create_tool "find_users"
       "Find users by organization. Args: organization_id (int). Returns: List of users with IDs, names, and roles.");
    ("get_user_info", create_tool "get_user_info"
       "Get user details. Args: user_id (int). Returns: User details including email and role.");
    ("get_user_permissions", create_tool "get_user_permissions"
       "Get user permissions and access rights. Args: user_id (int). Returns: List of permissions and access levels.");
    ("find_supply_sources", create_tool "find_supply_sources"
       "Find supply sources (ad exchanges). Args: organization_id (int, optional). Returns: List of supply sources with IDs and names.");
    ("get_supply_source_info", create_tool "get_supply_source_info"
       "Get supply source details and performance. Args: supply_source_id (int). Returns: Supply source performance metrics.") ].

(** [wrap_mcp_tools]: the client the catalog shares, and the catalog. *)
Definition wrap_mcp_tools (server_url api_key : string) : MCPClient.t * gmap string Tool :=
  let mcp_client := MCPClient.__init__ server_url api_key in
  (mcp_client, dict_literal catalog_items).

(** [get_default_mcp_tools] *)
Definition get_default_mcp_tools : MCPClient.t * gmap string Tool :=
  let DEFAULT_MCP_URL := "https://mediamath-mcp-mock-two.vercel.app/api/message" in
  let DEFAULT_API_KEY := "mcp_mock_2025_hypermindz_44b87c1d20ed" in
  wrap_mcp_tools DEFAULT_MCP_URL DEFAULT_API_KEY.

End WithCollaborators.

(** [tools[key]] on the catalog. *)
Definition tools_getitem (tools : gmap string Tool) (key : string) : res Tool :=
  match tools !! key with
  | Some tool => Ok tool
  | None => Raise (Exn KeyError [PStr key] ("'" +:+ key +:+ "'"))
  end.

(** [get_tools_by_category]: the subscripts of the dict literal are
    evaluated in the order they are written; the categories come out in
    the order of the literal. *)
Definition get_tools_by_category (tools : gmap string Tool)
    : res (list (string * list Tool)) :=
  let! find_campaigns := tools_getitem tools "find_campaigns" in
  let! get_campaign_info := tools_getitem tools "get_campaign_info" in
  let! create_campaign := tools_getitem tools "create_campaign" in
  let! update_campaign := tools_getitem tools "update_campaign" in
  let! delete_campaign := tools_getitem tools "delete_campaign" in
  let! update_campaign_budget := tools_getitem tools "update_campaign_budget" in
  let! find_strategies := tools_getitem tools "find_strategies" in
  let! get_strategy_info := tools_getitem tools "get_strategy_info" in
  let! create_strategy := tools_getitem tools "create_strategy" in
  let! update_strategy := tools_getitem tools "update_strategy" in
  let! delete_strategy := tools_getitem tools "delete_strategy" in
  let! find_audience_segments := tools_getitem tools "find_audience_segments" in
  let! get_audience_segment_info := tools_getitem tools "get_audience_segment_info" in
  let! create_audience_segment := tools_getitem tools "create_audience_segment" in
  let! update_audience_segment := tools_getitem tools "update_audience_segment" in
  let! delete_audience_segment := tools_getitem tools "delete_audience_segment" in
  let! find_creatives := tools_getitem tools "find_creatives" in
  let! get_creative_info := tools_getitem tools "get_creative_info" in
  let! create_creative := tools_getitem tools "create_creative" in
  let! update_creative := tools_getitem tools "update_creative" in
  let! delete_creative := tools_getitem tools "delete_creative" in
  let! find_organizations := tools_getitem tools "find_organizations" in
  let! get_organization_info := tools_getitem tools "get_organization_info" in
  let! find_users := tools_getitem tools "find_users" in
  let! get_user_info := tools_getitem tools "get_user_info" in
  let! get_user_permissions := tools_getitem tools "get_user_permissions" in
  let! find_supply_sources := tools_getitem tools "find_supply_sources" in
  let! get_supply_source_info := tools_getitem tools "get_supply_source_info" in
  Ok [
       ("campaign_management",
        [ find_campaigns; get_campaign_info; create_campaign; update_campaign; delete_campaign; update_campaign_budget ]);
       ("strategy_management",
        [ find_strategies; get_strategy_info; create_strategy; update_strategy; delete_strategy ]);
       ("audience_management",
        [ find_audience_segments; get_audience_segment_info; create_audience_segment; update_audience_segment; delete_audience_segment ]);
       ("creative_management",
        [ find_creatives; get_creative_info; create_creative; update_creative; delete_creative ]);
       ("organization_management",
        [ find_organizations; get_organization_info ]);
       ("user_management",
        [ find_users; get_user_info; get_user_permissions ]);
       ("supply_management",
        [ find_supply_sources; get_supply_source_info ]) ].

End MCPToolWrapper.

(** ** main.py *)

Module Main.

(** The class [Colors]: the ANSI escape sequences. *)
Module Colors.

Definition esc : string := String (ascii_of_nat 27) EmptyString.

Definition HEADER : string := esc +:+ "[95m".
Definition OKBLUE : string := esc +:+ "[94m".
Definition OKCYAN : string := esc +:+ "[96m".
Definition OKGREEN : string := esc +:+ "[92m".
Definition WARNING : string := esc +:+ "[93m".
Definition FAIL : string := esc +:+ "[91m".
Definition ENDC : string := esc +:+ "[0m".
Definition BOLD : string := esc +:+ "[1m".
Definition UNDERLINE : string := esc +:+ "[4m".

End Colors.

(** The bullet of line 146, the check mark of line 176 and the cross of
    lines 192 and 199: three bytes each in UTF-8. *)
Definition bullet : string := "•".
Definition check_mark : string := "✓".
Definition cross_mark : string := "✗".

(** The dict [required_vars] of [validate_environment]. *)
Definition required_vars : list (string * string) :=
  [ ("OPENAI_API_KEY", "OpenAI API key for LLM calls");
    ("MCP_SERVER_URL", "MediaMath MCP server URL");
    ("MCP_API_KEY", "MediaMath MCP API key") ].

(** Lines 143-146: the loop that collects the missing variables;
    [environ] is [os.environ]. *)
Definition missing_vars (environ : gmap string string) : list string :=
  fold_left
    (fun missing (item : string * string) =>
       if negb (FlowRouter.truthy (environ !! fst item))
       then (missing ++ [ "  " +:+ bullet +:+ " " +:+ fst item +:+ ": " +:+ snd item ])%list
       else missing)
    required_vars [].

Section WithCollaborators.

Variable str_lower : string -> string.
Variable str_strip : string -> string.
Variable print : string -> res unit.
Variable repr : pyval -> string.
Variable format_spec_2f : pyval -> string.
Variable json_loads : string -> res pyval.
Variable run_campaign_setup_flow : string -> res pyval.
Variable run_optimization_flow : string -> res pyval.
Variable run_analytics_flow : string -> res pyval.
Variable run_compliance_flow : string -> res pyval.
Variable run_creative_flow : string -> res pyval.

(** [print_colored] *)
Definition print_colored (text color : string) : res unit :=
  print (color +:+ text +:+ Colors.ENDC).

(** [validate_environment] *)
Definition validate_environment (environ : gmap string string) : res bool :=
  let missing_vars := missing_vars environ in
  match missing_vars with
  | _ :: _ =>
      run! print_colored
             (nl +:+ Colors.FAIL +:+ "Error: Missing required environment variables:"
              +:+ Colors.ENDC)
             Colors.FAIL in
      run! for_each print missing_vars in
      run! print (nl +:+ Colors.WARNING
                  +:+ "Please set these in your .env file or as environment variables"
                  +:+ Colors.ENDC) in
      Ok false
  | [] => Ok true
  end.

(** Lines 176-189: the report of a successful execution. *)
Definition report_success (result : FlowRouter.envelope) : res unit :=
  run! print_colored
         (nl +:+ Colors.OKGREEN +:+ check_mark +:+ " Query executed successfully!"
          +:+ Colors.ENDC)
         Colors.OKGREEN in
  let routing := FlowRouter.routing result in
  run! print (nl +:+ Colors.BOLD +:+ "Flow Selected:" +:+ Colors.ENDC +:+ " "
              +:+ py_str repr (FlowRouter.flow_name routing)) in
  let! shown := format_2f format_spec_2f (FlowRouter.confidence routing) in
  run! print (Colors.BOLD +:+ "Confidence:" +:+ Colors.ENDC +:+ " " +:+ shown) in
  let flow_result :=
    match FlowRouter.result result with
    | Some value => value
    | None => PDict []
    end in
  if py_truthy flow_result then
    run! print (nl +:+ Colors.BOLD +:+ "Result Summary:" +:+ Colors.ENDC) in
    print (py_str repr flow_result)
  else Ok tt.

(** Lines 191-192: the report of a failed execution. *)
Definition report_failure (result : FlowRouter.envelope) : res unit :=
  let error :=
    match FlowRouter.error result with
    | Some text => text
    | None => "Unknown error"
    end in
  print_colored
    (nl +:+ Colors.FAIL +:+ cross_mark +:+ " Error executing query: " +:+ error
     +:+ Colors.ENDC)
    Colors.FAIL.

(** [execute_query].  The clause for [KeyboardInterrupt], which is no
    [Exception], is outside the model. *)
Definition execute_query (router : FlowRouter.t) (query : string) : res bool :=
  try_except
    (run! print_colored (nl +:+ Colors.OKCYAN +:+ "Processing query..." +:+ Colors.ENDC)
            Colors.OKCYAN in
     let! result :=
       FlowRouter.execute_flow str_lower str_strip print repr format_spec_2f json_loads
         run_campaign_setup_flow run_optimization_flow run_analytics_flow
         run_compliance_flow run_creative_flow router query in
     if FlowRouter.success result then
       run! report_success result in
       Ok true
     else
       run! report_failure result in
       Ok false)
    (fun e =>
       run! print_colored
              (nl +:+ Colors.FAIL +:+ cross_mark +:+ " Error: " +:+ exn_str e +:+ Colors.ENDC)
              Colors.FAIL in
       Ok false).

End WithCollaborators.

End Main.

(** ** The vocabulary of the properties *)

(** The fixed set of flow identifiers. *)
Definition FLOW_IDS : list string :=
  [ "campaign_setup_flow"; "optimization_flow"; "analytics_flow";
    "compliance_flow"; "creative_flow" ].

(** [keyword] is a substring of [text]: the text is some text, then the
    keyword, then some text. *)
Definition occurs_in (keyword text : string) : Prop :=
  exists before after, text = before +:+ keyword +:+ after.

Lemma prefix_starts (keyword text : string) :
  String.prefix keyword text = true <-> exists after, text = keyword +:+ after.
Proof.
  revert text. induction keyword as [|c keyword IH]; intros text.
  - destruct text; cbn [String.prefix]; split; try reflexivity; intros _; eexists; reflexivity.
  - destruct text as [|d text]; cbn [String.prefix].
    + split; [discriminate|]. intros [after Hafter]. discriminate Hafter.
    + destruct (ascii_dec c d) as [<-|Hne].
      * rewrite IH. split; intros [after Hafter]; exists after.
        -- subst text. reflexivity.
        -- injection Hafter as Hafter. exact Hafter.
      * split; [discriminate|]. intros [after Hafter].
        injection Hafter as Hhead _. exfalso. apply Hne. symmetry. exact Hhead.
Qed.

(** The search of the operator [in] finds exactly the substrings. *)
Lemma str_in_occurs (keyword text : string) :
  str_in keyword text = true <-> occurs_in keyword text.
Proof.
  unfold occurs_in. induction text as [|d text IH]; cbn [str_in].
  - rewrite orb_false_r, prefix_starts. split.
    + intros [after Hafter]. exists "", after. exact Hafter.
    + intros (before & after & Hsplit). exists after.
      destruct before; [exact Hsplit|discriminate Hsplit].
  - rewrite orb_true_iff, prefix_starts, IH. split.
    + intros [[after Hafter]|(before & after & Hsplit)].
      * exists "", after. exact Hafter.
      * exists (String d before), after. subst text. reflexivity.
    + intros (before & after & Hsplit). destruct before as [|b before].
      * left. exists after. exact Hsplit.
      * right. injection Hsplit as _ Hsplit. exists before, after. exact Hsplit.
Qed.

#[global] Instance occurs_in_dec (keyword text : string) : Decision (occurs_in keyword text).
Proof.
  destruct (str_in keyword text) eqn:Hfound.
  - left. apply str_in_occurs. exact Hfound.
  - right. intros Hoccurs. apply str_in_occurs in Hoccurs.
    rewrite Hoccurs in Hfound. discriminate Hfound.
Defined.

(** The number of a flow's keywords that are substrings of the lower-cased
    query, where [str_lower] is the lower-casing of the interpreter. *)
Definition keyword_count (str_lower : string -> string) (query : string)
    (info : FlowRouter.flow_info) : Z :=
  Z.of_nat (length (filter (fun keyword => occurs_in keyword (str_lower query))
                      (FlowRouter.keywords info))).

(** A number lies in the closed interval from 0.0 to 1.0. *)
Definition in_unit_interval (x : float) : bool :=
  andb (PrimFloat.leb 0.0%float x) (PrimFloat.leb x 1.0%float).

(** A failure typed as a remote tool error with a code and a message: an
    exception of a class of its own, not the base class [Exception] that
    stands for any failure, which holds the code and the message as its
    data. *)
Definition typed_remote_tool_error (e : exn) (code : Z) (message : string) : Prop :=
  exn_class_of e <> Exception /\ exn_args e = [PInt code; PStr message].

(** The primary classification fails: the call to the model raises (or the
    reply carries no text), or [json.loads] raises on the text of the
    reply, or the decoded reply names no flow of the fixed set. *)
Definition llm_classification_fails (str_strip : string -> string)
    (json_loads : string -> res pyval) (self : FlowRouter.t) (query : string) : Prop :=
  (exists e, FlowRouter.llm_reply str_strip self query = Raise e) \/
  (exists result_text e,
     FlowRouter.llm_reply str_strip self query = Ok result_text /\
     json_loads result_text = Raise e) \/
  (exists result_text result,
     FlowRouter.llm_reply str_strip self query = Ok result_text /\
     json_loads result_text = Ok result /\
     forall flow, In flow FLOW_IDS -> py_get result "flow" PNone <> Ok (PStr flow)).

(** A field of the decoded reply as [result.get(key, default)] reads it. *)
Definition reply_field (items : list (string * pyval)) (key : string) (default : pyval)
    : pyval :=
  match dict_lookup items key with
  | Some value => value
  | None => default
  end.

(** The exception [e] is one that [print] raised on some line. *)
Definition raised_by_print (print : string -> res unit) (e : exn) : Prop :=
  exists line, print line = Raise e.

(** The exception [e] is one that [print] raised on one of the two lines of
    the [except] clause of [classify_intent]. *)
Definition raised_by_fallback_notice (print : string -> res unit) (e : exn) : Prop :=
  (exists cause,
     print ("[Router] Error during LLM classification: " +:+ exn_str cause) = Raise e) \/
  print "[Router] Falling back to keyword-based classification..." = Raise e.

(** [print] writes the two lines of the [except] clause of
    [classify_intent], whatever the exception they report. *)
Definition prints_fallback_notice (print : string -> res unit) : Prop :=
  (forall cause,
     print ("[Router] Error during LLM classification: " +:+ exn_str cause) = Ok tt) /\
  print "[Router] Falling back to keyword-based classification..." = Ok tt.

(** The flow entry points by flow name, as [execute_flow] pairs them. *)
Definition executor_table (run_campaign_setup_flow run_optimization_flow
    run_analytics_flow run_compliance_flow run_creative_flow : string -> res pyval)
    : list (string * (string -> res pyval)) :=
  [ ("campaign_setup_flow", run_campaign_setup_flow);
    ("optimization_flow", run_optimization_flow);
    ("analytics_flow", run_analytics_flow);
    ("compliance_flow", run_compliance_flow);
    ("creative_flow", run_creative_flow) ].

(** The request that [call_tool] sends, and the client it leaves. *)
Definition sent_request (self : MCPClient.t) (tool_name : string) (arguments : pyval)
    (timeout : Z) : MCPClient.http_request :=
  MCPClient.HttpRequest (MCPClient.server_url self)
    (MCPClient.call_payload tool_name arguments (MCPClient.request_id self + 1))
    (MCPClient.request_headers self) timeout.

Definition client_after_call (self : MCPClient.t) : MCPClient.t :=
  MCPClient.Build (MCPClient.server_url self) (MCPClient.api_key self)
    (MCPClient.request_id self + 1).

(** The request that [list_tools] sends. *)
Definition sent_list_request (self : MCPClient.t) : MCPClient.list_request :=
  MCPClient.ListRequest (MCPClient.server_url self)
    (MCPClient.list_payload (MCPClient.request_id self + 1))
    (MCPClient.request_headers self).

(** One use of a client by its owner: a tool call, a listing or a ping. *)
Inductive client_use : Type :=
| UseCallTool (tool_name : string) (arguments : pyval) (timeout : Z)
| UseListTools
| UsePing.

(** The client after one use, whatever the use returned or raised. *)
Definition client_after_use (json_loads : string -> res pyval)
    (requests_post : MCPClient.http_request -> res pyval)
    (requests_post_untimed : MCPClient.list_request -> res pyval)
    (repr : pyval -> string) (self : MCPClient.t) (use : client_use) : MCPClient.t :=
  match use with
  | UseCallTool tool_name arguments timeout =>
      snd (MCPClient.call_tool json_loads requests_post repr self tool_name arguments timeout)
  | UseListTools => snd (MCPClient.list_tools requests_post_untimed repr self)
  | UsePing => snd (MCPClient.ping requests_post_untimed repr self)
  end.

(** The client after a sequence of uses. *)
Definition client_after_uses (json_loads : string -> res pyval)
    (requests_post : MCPClient.http_request -> res pyval)
    (requests_post_untimed : MCPClient.list_request -> res pyval)
    (repr : pyval -> string) (self : MCPClient.t) (uses : list client_use) : MCPClient.t :=
  fold_left (client_after_use json_loads requests_post requests_post_untimed repr) uses self.

(** The names that [get_tools_by_category] groups, in the order of its
    dict literal. *)
Definition categorized_names (categories : list (string * list MCPToolWrapper.Tool))
    : list string :=
  concat (map (fun category => map MCPToolWrapper.name (snd category)) categories).

(** The shared client after a sequence of tool invocations, each a tool
    with its keyword arguments. *)
Definition client_after_tools
    (calls : list (MCPToolWrapper.Tool * list (string * pyval)))
    (mcp_client : MCPClient.t) : MCPClient.t :=
  fold_left (fun client call => snd (MCPToolWrapper.func (fst call) (snd call) client))
    calls mcp_client.

(** What [ping] answers when the exchange yields a decoded body that is
    not an object: a list or a string is searched for [error] and for
    [result] and cannot be subscripted by either, any other value cannot be
    searched. *)
Definition ping_on_plain_body (data : pyval) : bool :=
  match data with
  | PList l =>
      negb (existsb (fun x => py_eq_str x "error") l)
      && negb (existsb (fun x => py_eq_str x "result") l)
  | PStr s => negb (str_in "error" s) && negb (str_in "result" s)
  | _ => false
  end.

(** ** Sample collaborators for the closed examples *)

(** [str.lower] on a text written in ASCII: the capital letters move to
    their small letters. *)
Definition ascii_lower_char (c : ascii) : ascii :=
  let n := nat_of_ascii c in
  if (andb (Nat.leb 65 n) (Nat.leb n 90)) then ascii_of_nat (n + 32) else c.

Fixpoint ascii_lower (s : string) : string :=
  match s with
  | EmptyString => EmptyString
  | String c s' => String (ascii_lower_char c) (ascii_lower s')
  end.

(** [str.lower] on a text written in ASCII letters and the Kelvin sign
    U+212A (the bytes 226, 132, 170), whose small letter is the ASCII
    letter k. *)
Fixpoint kelvin_lower (s : string) : string :=
  match s with
  | EmptyString => EmptyString
  | String a s' =>
      match s' with
      | String b (String c rest) =>
          if andb (Nat.eqb (nat_of_ascii a) 226)
                  (andb (Nat.eqb (nat_of_ascii b) 132) (Nat.eqb (nat_of_ascii c) 170))
          then String "k" (kelvin_lower rest)
          else String (ascii_lower_char a) (kelvin_lower s')
      | _ => String (ascii_lower_char a) (kelvin_lower s')
      end
  end.

(** [str.strip] on a text written in ASCII: white space is the blank, the
    characters 9 to 13 and 28 to 31. *)
Definition ascii_space (c : ascii) : bool :=
  let n := nat_of_ascii c in
  orb (Nat.eqb n 32)
      (orb (andb (Nat.leb 9 n) (Nat.leb n 13)) (andb (Nat.leb 28 n) (Nat.leb n 31))).

Fixpoint ascii_lstrip (s : string) : string :=
  match s with
  | EmptyString => EmptyString
  | String c s' => if ascii_space c then ascii_lstrip s' else s
  end.

Fixpoint ascii_rstrip (s : string) : string :=
  match s with
  | EmptyString => EmptyString
  | String c s' =>
      match ascii_rstrip s' with
      | EmptyString => if ascii_space c then EmptyString else String c EmptyString
      | r => String c r
      end
  end.

Definition ascii_strip (s : string) : string := ascii_rstrip (ascii_lstrip s).

(** An output stream that takes every line. *)
Definition sample_print : string -> res unit := fun _ => Ok tt.

(** Every byte of the text is an ASCII character. *)
Fixpoint is_ascii_text (s : string) : bool :=
  match s with
  | EmptyString => true
  | String c s' => andb (Nat.ltb (nat_of_ascii c) 128) (is_ascii_text s')
  end.

(** An output stream with the ASCII encoding, which raises [failure] on a
    line that holds another character. *)
Definition ascii_print (failure : exn) : string -> res unit :=
  fun line => if is_ascii_text line then Ok tt else Raise failure.

(** The [UnicodeEncodeError] of the ASCII codec for the character [é] at
    position [position] of [line]. *)
Definition ascii_encode_error (line : string) (position : Z) : exn :=
  Exn UnicodeEncodeError
    [ PStr "ascii"; PStr line; PInt position; PInt (position + 1);
      PStr "ordinal not in range(128)" ]
    ("'ascii' codec can't encode character '\xe9' in position " +:+ str_of_int position
     +:+ ": ordinal not in range(128)").

Definition sample_format : pyval -> string := fun _ => "<.2f>".

(** A decoder that knows the texts of a table and rejects every other
    text. *)
Definition sample_loads (table : list (string * pyval)) : string -> res pyval :=
  fun text =>
    match dict_lookup table text with
    | Some value => Ok value
    | None => Raise (new_exn JSONDecodeError "Expecting value: line 1 column 1 (char 0)")
    end.

(** A model client that answers every request the same way. *)
Definition sample_client (answer : res FlowRouter.chat_response) : FlowRouter.OpenAI_client :=
  FlowRouter.OpenAIClient (fun _ => answer).

(** A router around such a client. *)
Definition sample_router (answer : res FlowRouter.chat_response) : FlowRouter.t :=
  FlowRouter.Build (Some "test_key") (sample_client answer).

(** A server that answers every request the same way. *)
Definition sample_post (answer : res pyval) : MCPClient.http_request -> res pyval :=
  fun _ => answer.

(** The same for the listing request. *)
Definition sample_post_untimed (answer : res pyval) : MCPClient.list_request -> res pyval :=
  fun _ => answer.

Definition sample_repr : pyval -> string := fun _ => "<repr>".

Definition sample_dumps : pyval -> res string := fun _ => Ok "<json>".

(** The text [{"flow": "analytics_flow", "confidence": 1.5}]. *)
Definition reply_text_confidence_1_5 : string :=
  "{" +:+ dquote +:+ "flow" +:+ dquote +:+ ": " +:+ dquote +:+ "analytics_flow" +:+ dquote
  +:+ ", " +:+ dquote +:+ "confidence" +:+ dquote +:+ ": 1.5}".

(** The value [json.loads] decodes it to. *)
Definition reply_confidence_1_5 : pyval :=
  PDict [ ("flow", PStr "analytics_flow"); ("confidence", PFloat 1.5%float) ].

(** The text [{"flow": "invalid_flow", "confidence": 0.9, "reasoning": "test"}]
    of the router's test suite, decoded. *)
#[warnings="-inexact-float"]
Definition reply_invalid_flow : pyval :=
  PDict [ ("flow", PStr "invalid_flow"); ("confidence", PFloat 0.9%float);
          ("reasoning", PStr "test") ].

(** The body [{"error": {"code": -32000, "message": "not found"}}]. *)
Definition body_error_not_found : pyval :=
  PDict [ ("error", PDict [ ("code", PInt (-32000)); ("message", PStr "not found") ]) ].

(** The body [{"jsonrpc": "2.0", "id": 1}], with neither a result nor an
    error. *)
Definition body_without_result_or_error : pyval :=
  PDict [ ("jsonrpc", PStr "2.0"); ("id", PInt 1) ].

(** The body [{"jsonrpc": "2.0", "id": 1, "result": {"content": ["plain text"]}}]. *)
Definition body_content_of_strings : pyval :=
  PDict [ ("jsonrpc", PStr "2.0"); ("id", PInt 1);
          ("result", PDict [ ("content", PList [ PStr "plain text" ]) ]) ].

(** A flow entry point that raises, and one that returns. *)
Definition failing_flow (message : string) : string -> res pyval :=
  fun _ => Raise (new_exn (UserError "RuntimeError") message).

Definition returning_flow (value : pyval) : string -> res pyval :=
  fun _ => Ok value.

(** * Properties *)
(** ** The builtins *)

Lemma py_sum_from (xs : list Z) (start : Z) :
  fold_left Z.add xs start = start + fold_left Z.add xs 0.
Proof.
  revert start. induction xs as [|x xs IH]; intros start; simpl.
  - lia.
  - rewrite (IH (start + x)), (IH (0 + x)). lia.
Qed.

Lemma py_sum_ones {A : Type} (xs : list A) :
  py_sum (map (fun _ => 1) xs) = Z.of_nat (length xs).
Proof.
  unfold py_sum. induction xs as [|x xs IH].
  - reflexivity.
  - cbn [map fold_left length]. rewrite py_sum_from, IH. lia.
Qed.

(** The loop of [max] returns an item that no item exceeds and that every
    earlier item is strictly below. *)
Lemma max_loop_first_highest (rest : list (string * Z)) :
  forall best,
  exists before after,
    best :: rest = (before ++ FlowRouter.max_loop best rest :: after)%list /\
    (forall item, In item before -> snd item < snd (FlowRouter.max_loop best rest)) /\
    (forall item, In item after -> snd item <= snd (FlowRouter.max_loop best rest)).
Proof.
  induction rest as [|item rest IH]; intros best.
  - exists [], []. split; [reflexivity|]. split; intros ? [].
  - cbn [FlowRouter.max_loop].
    destruct (Z.gtb_spec (snd item) (snd best)) as [Hgt|Hle].
    + destruct (IH item) as (before & after & Heq & Hbefore & Hafter).
      exists (best :: before), after.
      split; [cbn [app]; rewrite <- Heq; reflexivity|].
      split; [|exact Hafter].
      intros x [<-|Hx]; [|auto].
      assert (Hin : In item (before ++ FlowRouter.max_loop item rest :: after)%list)
        by (rewrite <- Heq; left; reflexivity).
      apply in_app_or in Hin as [Hin|[Hin|Hin]].
      * specialize (Hbefore _ Hin). lia.
      * rewrite Hin. lia.
      * specialize (Hafter _ Hin). lia.
    + destruct (IH best) as (before & after & Heq & Hbefore & Hafter).
      destruct before as [|b before].
      * cbn [app] in Heq. injection Heq as Hbest Hrest.
        exists [], (item :: rest).
        split; [cbn [app]; rewrite <- Hbest; reflexivity|].
        split; [intros ? []|].
        intros x [<-|Hx]; [rewrite <- Hbest; lia|].
        apply Hafter. rewrite <- Hrest. exact Hx.
      * cbn [app] in Heq. injection Heq as Hb Hrest. subst b.
        exists (best :: item :: before), after.
        split; [cbn [app]; rewrite <- Hrest; reflexivity|].
        split; [|exact Hafter].
        intros x [<-|[<-|Hx]].
        -- apply Hbefore. left; reflexivity.
        -- assert (snd best < snd (FlowRouter.max_loop best rest))
             by (apply Hbefore; left; reflexivity).
           lia.
        -- apply Hbefore. right; exact Hx.
Qed.

(** ** The keyword fallback *)

(** The score that line 173 computes with the operator [in] is the number
    of the flow's keywords that are substrings of the lower-cased query. *)
Lemma keyword_score_is_count (str_lower : string -> string) (query : string)
    (info : FlowRouter.flow_info) :
  FlowRouter.keyword_score (str_lower query) info = keyword_count str_lower query info.
Proof.
  unfold FlowRouter.keyword_score, keyword_count. rewrite py_sum_ones. f_equal.
  induction (FlowRouter.keywords info) as [|keyword rest IH]; [reflexivity|].
  cbn [List.filter]. rewrite filter_cons.
  destruct (str_in keyword (str_lower query)) eqn:Hfound.
  - rewrite decide_True by (apply str_in_occurs; exact Hfound).
    cbn [length]. rewrite IH. reflexivity.
  - rewrite decide_False; [exact IH|].
    intros Hoccurs. apply str_in_occurs in Hoccurs.
    rewrite Hoccurs in Hfound. discriminate Hfound.
Qed.

(** The loop of lines 171-174 leaves one score per flow, in the order of
    [FLOW_PATTERNS]. *)
Lemma count_scores_in_declaration_order (str_lower : string -> string) (query : string) :
  FlowRouter.count_scores (str_lower query) =
  map (fun entry => (fst entry, keyword_count str_lower query (snd entry))) FlowRouter.FLOW_PATTERNS.
Proof.
  unfold FlowRouter.count_scores, FlowRouter.FLOW_PATTERNS.
  cbn [fold_left map fst snd dict_set].
  rewrite !keyword_score_is_count.
  reflexivity.
Qed.

Lemma dict_lookup_unique {V : Type} (items : list (string * V)) (key : string) (v : V) :
  List.NoDup (map fst items) -> In (key, v) items -> dict_lookup items key = Some v.
Proof.
  induction items as [|[k w] items IH]; intros Hnodup Hin.
  - destruct Hin.
  - cbn [dict_lookup]. cbn [map fst] in Hnodup.
    apply List.NoDup_cons_iff in Hnodup as [Hfresh Hnodup].
    destruct Hin as [Hhead|Htail].
    + injection Hhead as -> ->. rewrite String.eqb_refl. reflexivity.
    + destruct (String.eqb_spec k key) as [->|Hne].
      * exfalso. apply Hfresh. apply (in_map fst) in Htail. exact Htail.
      * apply IH; assumption.
Qed.

Lemma FLOW_PATTERNS_keys : map fst FlowRouter.FLOW_PATTERNS = FLOW_IDS.
Proof. reflexivity. Qed.

Lemma FLOW_IDS_distinct : List.NoDup FLOW_IDS.
Proof.
  unfold FLOW_IDS.
  repeat (apply List.NoDup_cons_iff; split; [cbn [In]; intuition discriminate|]).
  apply List.NoDup_nil.
Qed.

Lemma keyword_count_range (str_lower : string -> string) (query : string)
    (info : FlowRouter.flow_info) :
  0 <= keyword_count str_lower query info <= Z.of_nat (length (FlowRouter.keywords info)).
Proof.
  unfold keyword_count. split; [lia|].
  apply Nat2Z.inj_le. apply length_filter.
Qed.

Lemma winner_count_range (str_lower : string -> string) (query flow : string)
    (info : FlowRouter.flow_info) :
  In (flow, info) FlowRouter.FLOW_PATTERNS -> 0 <= keyword_count str_lower query info <= 10.
Proof.
  intros Hin. pose proof (keyword_count_range str_lower query info) as Hrange.
  assert (Hlen : Z.of_nat (length (FlowRouter.keywords info)) <= 10).
  { unfold FlowRouter.FLOW_PATTERNS in Hin. cbn [In] in Hin.
    repeat (destruct Hin as [Hin|Hin]; [injection Hin as _ <-; cbn; lia|]).
    destruct Hin. }
  lia.
Qed.

(** Line 181 for a positive score: the confidence is the smaller of the
    quotient of the score by 3.0 and of 1.0. *)
Lemma fallback_confidence_is_minimum (n : Z) :
  0 < n <= 10 ->
  PrimFloat.leb (FlowRouter.fallback_confidence n)
    (PrimFloat.div (PrimFloat.of_uint63 (Uint63.of_Z n)) 3.0%float) = true /\
  PrimFloat.leb (FlowRouter.fallback_confidence n) 1.0%float = true /\
  (FlowRouter.fallback_confidence n
     = PrimFloat.div (PrimFloat.of_uint63 (Uint63.of_Z n)) 3.0%float \/
   FlowRouter.fallback_confidence n = 1.0%float).
Proof.
  intros Hrange.
  assert (Hin : In (Z.to_nat n) (seq 1 10)) by (apply in_seq; lia).
  rewrite <- (Z2Nat.id n) by lia.
  cbn [seq In] in Hin.
  repeat (destruct Hin as [<-|Hin];
          [split; [vm_compute; reflexivity|];
           split; [vm_compute; reflexivity|];
           first [left; vm_compute; reflexivity|right; vm_compute; reflexivity]|]).
  destruct Hin.
Qed.

(** The fallback in one piece: where the winner stands in [FLOW_PATTERNS],
    and the pair the function returns. *)
Lemma fallback_classification_result (str_lower : string -> string) (query : string) :
  exists before flow info after,
    FlowRouter.FLOW_PATTERNS = (before ++ (flow, info) :: after)%list /\
    (forall entry, In entry before ->
       keyword_count str_lower query (snd entry) < keyword_count str_lower query info) /\
    (forall entry, In entry after ->
       keyword_count str_lower query (snd entry) <= keyword_count str_lower query info) /\
    FlowRouter._fallback_classification str_lower query =
      Ok (PStr flow, PFloat (FlowRouter.fallback_confidence (keyword_count str_lower query info))).
Proof.
  set (score := fun entry : string * FlowRouter.flow_info =>
                  (fst entry, keyword_count str_lower query (snd entry))).
  assert (Hscores : FlowRouter.count_scores (str_lower query) = map score FlowRouter.FLOW_PATTERNS)
    by apply count_scores_in_declaration_order.
  assert (Hkeys : List.NoDup (map fst (map score FlowRouter.FLOW_PATTERNS))).
  { replace (map fst (map score FlowRouter.FLOW_PATTERNS)) with FLOW_IDS by reflexivity.
    apply FLOW_IDS_distinct. }
  unfold FlowRouter._fallback_classification. rewrite Hscores.
  remember FlowRouter.FLOW_PATTERNS as patterns eqn:Hpatterns.
  destruct patterns as [|first rest]; [discriminate Hpatterns|].
  cbn [map FlowRouter.max_by_score bind].
  destruct (max_loop_first_highest (map score rest) (score first))
    as (before' & after' & Heq & Hbefore & Hafter).
  set (best := FlowRouter.max_loop (score first) (map score rest)) in *.
  change (score first :: map score rest) with (map score (first :: rest)) in Heq.
  apply map_eq_app in Heq as (before & tail & Hsplit & Hmap_before & Hmap_tail).
  apply map_eq_cons in Hmap_tail as (winner & after & Htail & Hwinner & Hmap_after).
  subst tail. destruct winner as [flow info].
  exists before, flow, info, after.
  assert (Hbest : best = (flow, keyword_count str_lower query info))
    by (rewrite <- Hwinner; reflexivity).
  split; [exact Hsplit|].
  split.
  { intros entry Hin. rewrite Hbest in Hbefore. cbn [snd] in Hbefore.
    apply (Hbefore (score entry)). rewrite <- Hmap_before. apply in_map. exact Hin. }
  split.
  { intros entry Hin. rewrite Hbest in Hafter. cbn [snd] in Hafter.
    apply (Hafter (score entry)). rewrite <- Hmap_after. apply in_map. exact Hin. }
  rewrite Hbest. cbn [fst].
  unfold FlowRouter.scores_getitem.
  change (score first :: map score rest) with (map score (first :: rest)).
  rewrite (dict_lookup_unique (map score (first :: rest)) flow (keyword_count str_lower query info)).
  - reflexivity.
  - exact Hkeys.
  - rewrite Hsplit. change (flow, keyword_count str_lower query info) with (score (flow, info)).
    apply in_map. apply in_or_app. right. left. reflexivity.
Qed.

(** C3.  [_fallback_classification] scores every flow of [FLOW_PATTERNS],
    in declaration order, by the number of its keywords that are
    substrings of the lower-cased query: [keyword_count] counts the
    keywords [k] for which the text [str_lower query] is some text, then
    [k], then some text, where [str_lower] is the lower-casing of the
    interpreter.  It returns the flow with the highest count, and of
    several flows with that count the one declared first: every flow
    declared before the winner has a strictly smaller count, every flow
    declared after it has at most the same count.  The confidence is
    [min(count / 3.0, 1.0)] when the winning count is positive, that is the
    smaller of the float quotient of the count by 3.0 and of 1.0, and it is
    0.3 when every flow's count is zero. *)
#[warnings="-inexact-float"]
Theorem fallback_classification_first_highest_count (str_lower : string -> string)
    (query : string) :
  FlowRouter.count_scores (str_lower query) =
    map (fun entry => (fst entry, keyword_count str_lower query (snd entry))) FlowRouter.FLOW_PATTERNS /\
  exists before flow info after confidence,
    FlowRouter.FLOW_PATTERNS = (before ++ (flow, info) :: after)%list /\
    (forall entry, In entry before ->
       keyword_count str_lower query (snd entry) < keyword_count str_lower query info) /\
    (forall entry, In entry after ->
       keyword_count str_lower query (snd entry) <= keyword_count str_lower query info) /\
    FlowRouter._fallback_classification str_lower query = Ok (PStr flow, PFloat confidence) /\
    (0 < keyword_count str_lower query info ->
       confidence =
         py_min (PrimFloat.div (float_of_int (keyword_count str_lower query info)) 3.0%float) 1.0%float /\
       PrimFloat.leb confidence
         (PrimFloat.div (PrimFloat.of_uint63 (Uint63.of_Z (keyword_count str_lower query info)))
            3.0%float) = true /\
       PrimFloat.leb confidence 1.0%float = true /\
       (confidence
          = PrimFloat.div (PrimFloat.of_uint63 (Uint63.of_Z (keyword_count str_lower query info)))
              3.0%float \/
        confidence = 1.0%float)) /\
    ((forall entry, In entry FlowRouter.FLOW_PATTERNS -> keyword_count str_lower query (snd entry) = 0) ->
       confidence = 0.3%float).
Proof.
  split; [apply count_scores_in_declaration_order|].
  destruct (fallback_classification_result str_lower query)
    as (before & flow & info & after & Hsplit & Hbefore & Hafter & Hresult).
  assert (Hwinner : In (flow, info) FlowRouter.FLOW_PATTERNS)
    by (rewrite Hsplit; apply in_or_app; right; left; reflexivity).
  exists before, flow, info, after,
    (FlowRouter.fallback_confidence (keyword_count str_lower query info)).
  split; [exact Hsplit|]. split; [exact Hbefore|]. split; [exact Hafter|].
  split; [exact Hresult|]. split.
  - intros Hpositive. split.
    + unfold FlowRouter.fallback_confidence.
      destruct (Z.gtb_spec (keyword_count str_lower query info) 0) as [_|Hle]; [reflexivity|lia].
    + apply fallback_confidence_is_minimum.
      pose proof (winner_count_range str_lower query flow info Hwinner). lia.
  - intros Hzero.
    assert (Hcount : keyword_count str_lower query info = 0).
    { apply (Hzero (flow, info)). rewrite Hsplit.
      apply in_or_app. right. left. reflexivity. }
    rewrite Hcount. reflexivity.
Qed.

(** The scenarios of the specification and of the router's test suite. *)
Example fallback_create_campaigns :
  FlowRouter._fallback_classification ascii_lower "Create 10 holiday campaigns with $5000 budget each"
  = Ok (PStr "campaign_setup_flow", PFloat 0x1.5555555555555p-2%float).
Proof. vm_compute. reflexivity. Qed.

Example fallback_pause_underperforming :
  FlowRouter._fallback_classification ascii_lower "Pause all underperforming campaigns"
  = Ok (PStr "optimization_flow", PFloat 0x1.5555555555555p-1%float).
Proof. vm_compute. reflexivity. Qed.

Example fallback_performance_report :
  FlowRouter._fallback_classification ascii_lower "Generate performance report"
  = Ok (PStr "analytics_flow", PFloat 0x1.5555555555555p-1%float).
Proof. vm_compute. reflexivity. Qed.

Example fallback_audit_permissions :
  FlowRouter._fallback_classification ascii_lower "Audit user permissions"
  = Ok (PStr "compliance_flow", PFloat 0x1.5555555555555p-1%float).
Proof. vm_compute. reflexivity. Qed.

#[warnings="-inexact-float"]
Example fallback_empty_query :
  FlowRouter._fallback_classification ascii_lower "" = Ok (PStr "campaign_setup_flow", PFloat 0.3%float).
Proof. vm_compute. reflexivity. Qed.

(** One keyword of [optimization_flow] and one of [creative_flow]: the tie
    goes to the flow declared first. *)
Example fallback_tie_goes_to_first_declared :
  FlowRouter._fallback_classification ascii_lower "Identify underperforming ads"
  = Ok (PStr "optimization_flow", PFloat 0x1.5555555555555p-2%float).
Proof. vm_compute. reflexivity. Qed.

(** Three keywords or more saturate the confidence. *)
Example fallback_saturated_confidence :
  FlowRouter._fallback_classification ascii_lower "Create, launch, build and set up new campaigns"
  = Ok (PStr "campaign_setup_flow", PFloat 1.0%float).
Proof. vm_compute. reflexivity. Qed.

(** The lower-casing is the interpreter's, beyond ASCII too: the Kelvin
    sign of [BULK CREATE] becomes the letter k, the keyword [bulk create]
    is found beside [create], and the tie of two keywords each with
    [optimization_flow] goes to [campaign_setup_flow]. *)
Example fallback_kelvin_sign :
  FlowRouter._fallback_classification kelvin_lower "BULK CREATE, pause and optimize"
  = Ok (PStr "campaign_setup_flow", PFloat 0x1.5555555555555p-1%float).
Proof. vm_compute. reflexivity. Qed.

Lemma fallback_confidence_in_unit_interval (n : Z) :
  0 <= n <= 10 -> in_unit_interval (FlowRouter.fallback_confidence n) = true.
Proof.
  intros Hrange.
  assert (Hall : forallb (fun k => in_unit_interval (FlowRouter.fallback_confidence k))
                   (map Z.of_nat (seq 0 11)) = true)
    by (vm_compute; reflexivity).
  rewrite forallb_forall in Hall. apply Hall.
  rewrite <- (Z2Nat.id n) by lia.
  apply in_map, in_seq. lia.
Qed.

(** The fallback always returns, with a flow of the fixed set and a
    confidence between 0.0 and 1.0. *)
Lemma fallback_classification_valid (str_lower : string -> string) (query : string) :
  exists flow confidence,
    FlowRouter._fallback_classification str_lower query = Ok (PStr flow, PFloat confidence) /\
    In flow FLOW_IDS /\
    in_unit_interval confidence = true.
Proof.
  destruct (fallback_classification_result str_lower query)
    as (before & flow & info & after & Hsplit & _ & _ & Hresult).
  assert (Hin : In (flow, info) FlowRouter.FLOW_PATTERNS)
    by (rewrite Hsplit; apply in_or_app; right; left; reflexivity).
  exists flow, (FlowRouter.fallback_confidence (keyword_count str_lower query info)).
  split; [exact Hresult|]. split.
  - rewrite <- FLOW_PATTERNS_keys. apply (in_map fst) in Hin. exact Hin.
  - apply fallback_confidence_in_unit_interval.
    pose proof (keyword_count_range str_lower query info) as Hrange.
    assert (Hlen : Z.of_nat (length (FlowRouter.keywords info)) <= 10).
    { unfold FlowRouter.FLOW_PATTERNS in Hin. cbn [In] in Hin.
      repeat (destruct Hin as [Hin|Hin]; [injection Hin as _ <-; cbn; lia|]).
      destruct Hin. }
    lia.
Qed.

(** The bounds of the fallback: for every query, [_fallback_classification]
    returns a flow of the fixed set with a confidence between 0.0 and 1.0. *)
Theorem fallback_confidence_within_bounds (str_lower : string -> string) (query : string) :
  exists flow confidence,
    FlowRouter._fallback_classification str_lower query = Ok (PStr flow, PFloat confidence) /\
    In flow FLOW_IDS /\
    PrimFloat.leb 0.0%float confidence = true /\
    PrimFloat.leb confidence 1.0%float = true.
Proof.
  destruct (fallback_classification_valid str_lower query) as (flow & c & Heq & Hin & Hbounds).
  exists flow, c. split; [exact Heq|]. split; [exact Hin|].
  unfold in_unit_interval in Hbounds. apply andb_prop in Hbounds. exact Hbounds.
Qed.

(** ** The primary classification *)

Lemma flow_descriptions_ok : exists descriptions, FlowRouter.flow_descriptions = Ok descriptions.
Proof. eexists. vm_compute. reflexivity. Qed.

Lemma classification_prompt_ok (query : string) :
  exists prompt, FlowRouter.classification_prompt query = Ok prompt.
Proof.
  unfold FlowRouter.classification_prompt.
  destruct flow_descriptions_ok as [descriptions ->].
  eexists. reflexivity.
Qed.

Lemma FLOW_IDS_are_keys (flow : string) :
  In flow FLOW_IDS ->
  existsb (fun kv : string * FlowRouter.flow_info => String.eqb (fst kv) flow)
    FlowRouter.FLOW_PATTERNS = true.
Proof.
  intros Hin. rewrite <- FLOW_PATTERNS_keys in Hin.
  apply in_map_iff in Hin as (entry & Hfst & Hentry).
  apply existsb_exists. exists entry. split; [exact Hentry|].
  rewrite Hfst. apply String.eqb_refl.
Qed.

Lemma keys_are_FLOW_IDS (flow : string) :
  existsb (fun kv : string * FlowRouter.flow_info => String.eqb (fst kv) flow)
    FlowRouter.FLOW_PATTERNS = true ->
  In flow FLOW_IDS.
Proof.
  intros Hkey. apply existsb_exists in Hkey as ([key info] & Hin & Heq).
  cbn [fst] in Heq. apply String.eqb_eq in Heq. subst key.
  rewrite <- FLOW_PATTERNS_keys. apply (in_map fst) in Hin. exact Hin.
Qed.

Lemma raised_by_fallback_notice_print (print : string -> res unit) (e : exn) :
  raised_by_fallback_notice print e -> raised_by_print print e.
Proof. intros [[cause Hraise]|Hraise]; eexists; exact Hraise. Qed.

Section Router.

Variable str_lower : string -> string.
Variable str_strip : string -> string.
Variable print : string -> res unit.
Variable repr : pyval -> string.
Variable format_spec_2f : pyval -> string.
Variable json_loads : string -> res pyval.

#[warnings="-notation-for-abbreviation"]
Local Notation fallback := (FlowRouter._fallback_classification str_lower).
#[warnings="-notation-for-abbreviation"]
Local Notation fall_back_after := (FlowRouter.fall_back_after str_lower print).
#[warnings="-notation-for-abbreviation"]
Local Notation report_classification :=
  (FlowRouter.report_classification print repr format_spec_2f).
#[warnings="-notation-for-abbreviation"]
Local Notation accept_reply :=
  (FlowRouter.accept_reply str_lower print repr format_spec_2f json_loads).
#[warnings="-notation-for-abbreviation"]
Local Notation llm_reply := (FlowRouter.llm_reply str_strip).
#[warnings="-notation-for-abbreviation"]
Local Notation classify_intent :=
  (FlowRouter.classify_intent str_lower str_strip print repr format_spec_2f json_loads).
#[warnings="-notation-for-abbreviation"]
Local Notation route :=
  (FlowRouter.route str_lower str_strip print repr format_spec_2f json_loads).

(** [classify_intent] read through the reply of the model: an exception on
    the way to the reply, or inside the treatment of the reply, enters the
    [except] clause. *)
Lemma classify_intent_by_reply (self : FlowRouter.t) (query : string) :
  classify_intent self query =
  match llm_reply self query with
  | Raise e => fall_back_after e query
  | Ok result_text =>
      try_except (accept_reply result_text query) (fun e => fall_back_after e query)
  end.
Proof.
  unfold FlowRouter.classify_intent, FlowRouter.llm_reply.
  destruct (classification_prompt_ok query) as [prompt ->]. cbn [bind].
  destruct (FlowRouter.chat_completions_create _ _) as [response|e]; cbn [bind try_except];
    [|reflexivity].
  destruct (FlowRouter.response_text str_strip response) as [text|e]; reflexivity.
Qed.

(** The [except] clause ends in the keyword fallback, unless [print]
    raises on one of its two lines. *)
Lemma fall_back_after_cases (cause : exn) (query : string) :
  fall_back_after cause query = fallback query \/
  exists e, fall_back_after cause query = Raise e /\ raised_by_fallback_notice print e.
Proof.
  unfold FlowRouter.fall_back_after.
  destruct (print ("[Router] Error during LLM classification: " +:+ exn_str cause))
    as [[]|e] eqn:Hfirst; cbn [bind].
  - destruct (print "[Router] Falling back to keyword-based classification...")
      as [[]|e] eqn:Hsecond; cbn [bind].
    + left. reflexivity.
    + right. exists e. split; [reflexivity|]. right. exact Hsecond.
  - right. exists e. split; [reflexivity|]. left. exists cause. exact Hfirst.
Qed.

Lemma fall_back_after_printed (cause : exn) (query : string) :
  prints_fallback_notice print -> fall_back_after cause query = fallback query.
Proof.
  intros [Hfirst Hsecond]. unfold FlowRouter.fall_back_after.
  rewrite Hfirst, Hsecond. reflexivity.
Qed.

Lemma fallback_notice_not_raised (e : exn) :
  prints_fallback_notice print -> ~ raised_by_fallback_notice print e.
Proof.
  intros [Hfirst Hsecond] [[cause Hraise]|Hraise].
  - rewrite Hfirst in Hraise. discriminate Hraise.
  - rewrite Hsecond in Hraise. discriminate Hraise.
Qed.

(** The report of lines 147-149 returns only if the confidence takes the
    [.2f] format. *)
Lemma report_classification_formats (flow_name confidence reasoning : pyval) :
  report_classification flow_name confidence reasoning = Ok tt ->
  exists shown, format_2f format_spec_2f confidence = Ok shown.
Proof.
  unfold FlowRouter.report_classification.
  destruct (print _) as [[]|e]; cbn [bind]; [|discriminate].
  destruct (format_2f format_spec_2f confidence) as [shown|e]; cbn [bind]; [|discriminate].
  intros _. exists shown. reflexivity.
Qed.

(** The treatment of a reply either ends in the fallback, or raises, or
    accepts a flow name that is a key of [FLOW_PATTERNS] together with the
    confidence found in the reply. *)
Lemma accept_reply_cases (result_text query : string) :
  accept_reply result_text query = fallback query \/
  (exists e, accept_reply result_text query = Raise e) \/
  (exists items flow shown,
     json_loads result_text = Ok (PDict items) /\
     dict_lookup items "flow" = Some (PStr flow) /\
     In flow FLOW_IDS /\
     format_2f format_spec_2f (reply_field items "confidence" (PFloat 0.5%float)) = Ok shown /\
     accept_reply result_text query
       = Ok (PStr flow, reply_field items "confidence" (PFloat 0.5%float))).
Proof.
  unfold FlowRouter.accept_reply.
  destruct (json_loads result_text) as [result|e] eqn:Hloads; cbn [bind];
    [|right; left; eexists; reflexivity].
  destruct result as [| | | | |l|items]; cbn [py_get bind];
    try (right; left; eexists; reflexivity).
  fold (reply_field items "confidence" (PFloat 0.5%float)).
  fold (reply_field items "reasoning" (PStr "")).
  destruct (dict_lookup items "flow") as [flow_name|] eqn:Hflow;
    [|left; reflexivity].
  destruct flow_name as [| | | |flow| |]; cbn [FlowRouter.not_in_FLOW_PATTERNS bind];
    try (left; reflexivity); try (right; left; eexists; reflexivity).
  destruct (existsb _ FlowRouter.FLOW_PATTERNS) eqn:Hkey; cbn [negb];
    [|left; reflexivity].
  destruct (report_classification (PStr flow) _ _) as [[]|e] eqn:Hreport; cbn [bind];
    [|right; left; eexists; reflexivity].
  destruct (report_classification_formats _ _ _ Hreport) as [shown Hformat].
  right; right. exists items, flow, shown.
  split; [reflexivity|]. split; [exact Hflow|].
  split; [apply keys_are_FLOW_IDS; exact Hkey|]. split; [exact Hformat|reflexivity].
Qed.

(** What [classify_intent] does, whatever the model and the decoder do: it
    returns a flow of the fixed set and a confidence that the [.2f] format
    accepts, or it raises what [print] raised in its [except] clause. *)
Lemma classify_intent_result (self : FlowRouter.t) (query : string) :
  (exists flow confidence shown,
     classify_intent self query = Ok (PStr flow, confidence) /\
     In flow FLOW_IDS /\
     format_2f format_spec_2f confidence = Ok shown) \/
  (exists e, classify_intent self query = Raise e /\ raised_by_fallback_notice print e).
Proof.
  assert (Hfallback : exists flow confidence shown,
            fallback query = Ok (PStr flow, confidence) /\
            In flow FLOW_IDS /\ format_2f format_spec_2f confidence = Ok shown).
  { destruct (fallback_classification_valid str_lower query) as (flow & c & Heq & Hin & _).
    exists flow, (PFloat c), (format_spec_2f (PFloat c)).
    repeat split; assumption || reflexivity. }
  assert (Hclause : forall cause,
            (exists flow confidence shown,
               fall_back_after cause query = Ok (PStr flow, confidence) /\
               In flow FLOW_IDS /\ format_2f format_spec_2f confidence = Ok shown) \/
            (exists e, fall_back_after cause query = Raise e /\
                       raised_by_fallback_notice print e)).
  { intros cause. destruct (fall_back_after_cases cause query) as [->|Hraise].
    - left. exact Hfallback.
    - right. exact Hraise. }
  rewrite classify_intent_by_reply.
  destruct (llm_reply self query) as [text|cause]; [|apply Hclause].
  destruct (accept_reply_cases text query)
    as [Heq|[[cause Heq]|(items & flow & shown & _ & _ & Hin & Hformat & Heq)]];
    rewrite Heq; cbn [try_except].
  - left. destruct Hfallback as (flow & c & shown & -> & Hrest).
    exists flow, c, shown. split; [reflexivity|exact Hrest].
  - apply Hclause.
  - left. exists flow, (reply_field items "confidence" (PFloat 0.5%float)), shown.
    repeat split; assumption || reflexivity.
Qed.

(** C1.  For every query, [_fallback_classification] returns a pair whose
    flow identifier is one of the five of the fixed set.  For every query,
    every behaviour of the model, every JSON decoder and every output
    stream, a pair that [classify_intent] returns has a flow identifier of
    the fixed set, on the path of the model's reply as on the path of the
    keywords; [classify_intent] returns such a pair whenever [print] writes
    the two lines of its [except] clause, and the only exception that it
    can raise is one that [print] raised on one of these two lines. *)
Theorem classify_intent_flow_in_fixed_set (self : FlowRouter.t) (query : string) :
  (exists flow confidence,
     fallback query = Ok (PStr flow, confidence) /\ In flow FLOW_IDS) /\
  (forall flow_name confidence,
     classify_intent self query = Ok (flow_name, confidence) ->
     exists flow, flow_name = PStr flow /\ In flow FLOW_IDS) /\
  (prints_fallback_notice print ->
     exists flow confidence,
       classify_intent self query = Ok (PStr flow, confidence) /\ In flow FLOW_IDS) /\
  (forall e,
     classify_intent self query = Raise e -> raised_by_fallback_notice print e).
Proof.
  split; [|split; [|split]].
  - destruct (fallback_classification_valid str_lower query) as (flow & c & Heq & Hin & _).
    exists flow, (PFloat c). split; assumption.
  - intros flow_name confidence Hreturned.
    destruct (classify_intent_result self query)
      as [(flow & c & _ & Heq & Hin & _)|(e & Heq & _)];
      rewrite Heq in Hreturned; [|discriminate Hreturned].
    injection Hreturned as <- _. exists flow. split; [reflexivity|exact Hin].
  - intros Hprints.
    destruct (classify_intent_result self query)
      as [(flow & c & _ & Heq & Hin & _)|(e & _ & Hraised)].
    + exists flow, c. split; assumption.
    + exfalso. exact (fallback_notice_not_raised e Hprints Hraised).
  - intros e Hraise.
    destruct (classify_intent_result self query)
      as [(flow & c & _ & Heq & _)|(e' & Heq & Hraised)];
      rewrite Heq in Hraise; [discriminate Hraise|].
    injection Hraise as <-. exact Hraised.
Qed.


(** A reply that names a flow of the fixed set with a number for its
    confidence is returned as it stands once its report is printed:
    nothing on the primary path looks at the value of the number. *)
Lemma classify_intent_keeps_reply_confidence (self : FlowRouter.t)
    (query result_text flow : string) (c : float) (items : list (string * pyval)) :
  llm_reply self query = Ok result_text ->
  json_loads result_text = Ok (PDict items) ->
  dict_lookup items "flow" = Some (PStr flow) ->
  In flow FLOW_IDS ->
  dict_lookup items "confidence" = Some (PFloat c) ->
  report_classification (PStr flow) (PFloat c) (reply_field items "reasoning" (PStr ""))
    = Ok tt ->
  classify_intent self query = Ok (PStr flow, PFloat c).
Proof.
  intros Hreply Hloads Hflow Hin Hconfidence Hreport.
  rewrite classify_intent_by_reply, Hreply.
  unfold FlowRouter.accept_reply.
  rewrite Hloads. cbn [bind py_get]. rewrite Hflow, Hconfidence.
  cbn [FlowRouter.not_in_FLOW_PATTERNS bind].
  rewrite (FLOW_IDS_are_keys flow Hin). cbn [negb].
  fold (reply_field items "reasoning" (PStr "")). rewrite Hreport. reflexivity.
Qed.


(** ** Routing and dispatch *)

(** [route] returns the classification with the entry of [FLOW_PATTERNS]
    for its flow, or raises what [print] raised. *)
Lemma route_cases (self : FlowRouter.t) (query : string) :
  (exists flow confidence info shown,
     classify_intent self query = Ok (PStr flow, confidence) /\
     In (flow, info) FlowRouter.FLOW_PATTERNS /\
     format_2f format_spec_2f confidence = Ok shown /\
     route self query = Ok (FlowRouter.RoutingResult (PStr flow) confidence query info)) \/
  (exists e, route self query = Raise e /\ raised_by_print print e).
Proof.
  unfold FlowRouter.route.
  destruct (print (nl +:+ FlowRouter.rule)) as [[]|e] eqn:Hline1; cbn [bind];
    [|right; exists e; split; [reflexivity|eexists; exact Hline1]].
  destruct (print "FLOW ROUTER") as [[]|e] eqn:Hline2; cbn [bind];
    [|right; exists e; split; [reflexivity|eexists; exact Hline2]].
  destruct (print FlowRouter.rule) as [[]|e] eqn:Hline3; cbn [bind];
    [|right; exists e; split; [reflexivity|eexists; exact Hline3]].
  destruct (print ("Query: " +:+ query)) as [[]|e] eqn:Hline4; cbn [bind];
    [|right; exists e; split; [reflexivity|eexists; exact Hline4]].
  destruct (classify_intent_result self query)
    as [(flow & c & shown & Hclassify & Hin & Hformat)|(e & Hclassify & Hraised)];
    rewrite Hclassify; cbn [bind];
    [|right; exists e; split;
      [reflexivity|apply raised_by_fallback_notice_print; exact Hraised]].
  rewrite <- FLOW_PATTERNS_keys in Hin.
  apply in_map_iff in Hin as ([key info] & Hkey & Hentry). cbn [fst] in Hkey. subst key.
  cbn [fst snd FlowRouter.FLOW_PATTERNS_get].
  rewrite (dict_lookup_unique FlowRouter.FLOW_PATTERNS flow info);
    [|rewrite FLOW_PATTERNS_keys; apply FLOW_IDS_distinct|exact Hentry].
  cbn [bind].
  destruct (print (nl +:+ "[Router] Routing to: " +:+ py_str repr (PStr flow)))
    as [[]|e] eqn:Hline5; cbn [bind];
    [|right; exists e; split; [reflexivity|eexists; exact Hline5]].
  rewrite Hformat. cbn [bind].
  destruct (print ("[Router] Confidence: " +:+ shown)) as [[]|e] eqn:Hline6; cbn [bind];
    [|right; exists e; split; [reflexivity|eexists; exact Hline6]].
  destruct (print (FlowRouter.rule +:+ nl)) as [[]|e] eqn:Hline7; cbn [bind];
    [|right; exists e; split; [reflexivity|eexists; exact Hline7]].
  left. exists flow, c, info, shown.
  split; [reflexivity|]. split; [exact Hentry|]. split; [exact Hformat|reflexivity].
Qed.

Lemma print_never_raises (e : exn) :
  (forall line, print line = Ok tt) -> ~ raised_by_print print e.
Proof. intros Hprints [line Hraise]. rewrite Hprints in Hraise. discriminate Hraise. Qed.


Variable run_campaign_setup_flow : string -> res pyval.
Variable run_optimization_flow : string -> res pyval.
Variable run_analytics_flow : string -> res pyval.
Variable run_compliance_flow : string -> res pyval.
Variable run_creative_flow : string -> res pyval.

#[warnings="-notation-for-abbreviation"]
Local Notation flows_table :=
  (executor_table run_campaign_setup_flow run_optimization_flow run_analytics_flow
     run_compliance_flow run_creative_flow).
#[warnings="-notation-for-abbreviation"]
Local Notation run_selected_flow :=
  (FlowRouter.run_selected_flow repr run_campaign_setup_flow run_optimization_flow
     run_analytics_flow run_compliance_flow run_creative_flow).
#[warnings="-notation-for-abbreviation"]
Local Notation execute_flow :=
  (FlowRouter.execute_flow str_lower str_strip print repr format_spec_2f json_loads
     run_campaign_setup_flow run_optimization_flow run_analytics_flow
     run_compliance_flow run_creative_flow).

(** The [if]/[elif] chain calls the entry point that [executor_table]
    pairs with the flow name. *)
Lemma run_selected_flow_by_table (flow : string) (run : string -> res pyval)
    (query : string) :
  In (flow, run) flows_table -> run_selected_flow (PStr flow) query = run query.
Proof.
  unfold executor_table. cbn [In].
  intros [H|[H|[H|[H|[H|[]]]]]]; injection H as <- <-; reflexivity.
Qed.

(** Every flow of the fixed set has its entry point in the table. *)
Lemma executor_table_covers (flow : string) :
  In flow FLOW_IDS -> exists run, In (flow, run) flows_table.
Proof.
  unfold FLOW_IDS, executor_table. cbn [In].
  intros [<-|[<-|[<-|[<-|[<-|[]]]]]]; eexists; eauto 6.
Qed.

(** [execute_flow] after [route]: an exception of [route] propagates, and a
    routing result leads to an envelope, whatever the entry point does. *)
Lemma execute_flow_by_route (self : FlowRouter.t) (query : string) :
  execute_flow self query =
  match route self query with
  | Raise e => Raise e
  | Ok routing_result =>
      Ok (match run_selected_flow (FlowRouter.flow_name routing_result) query with
          | Ok value => FlowRouter.Envelope routing_result (Some value) None true
          | Raise e => FlowRouter.Envelope routing_result None (Some (exn_str e)) false
          end)
  end.
Proof.
  unfold FlowRouter.execute_flow.
  destruct (route self query) as [routing_result|e]; cbn [bind]; [|reflexivity].
  destruct (run_selected_flow _ query); reflexivity.
Qed.


End Router.

(** *** Closed instances *)



(** C5 at the reply [{"flow": "analytics_flow", "confidence": 1.5}]: the
    primary path of [classify_intent] returns the confidence 1.5, which is
    not in the interval from 0.0 to 1.0, while the fallback for the same
    query stays inside it. *)
Theorem classify_intent_confidence_above_one :
  FlowRouter.classify_intent ascii_lower ascii_strip sample_print sample_repr sample_format
    (sample_loads [(reply_text_confidence_1_5, reply_confidence_1_5)])
    (sample_router (Ok (FlowRouter.ChatResponse [Some reply_text_confidence_1_5])))
    "Generate performance report"
  = Ok (PStr "analytics_flow", PFloat 1.5%float) /\
  in_unit_interval 1.5%float = false /\
  FlowRouter._fallback_classification ascii_lower "Generate performance report"
  = Ok (PStr "analytics_flow", PFloat 0x1.5555555555555p-1%float).
Proof.
  split; [|split; vm_compute; reflexivity].
  apply (classify_intent_keeps_reply_confidence ascii_lower ascii_strip sample_print
           sample_repr sample_format _ _ _ reply_text_confidence_1_5 _ _
           [("flow", PStr "analytics_flow"); ("confidence", PFloat 1.5%float)]).
  - vm_compute. reflexivity.
  - vm_compute. reflexivity.
  - reflexivity.
  - right; right; left. reflexivity.
  - reflexivity.
  - reflexivity.
Qed.


(** A confidence given as a string is refused by the format of line 148,
    and the query is classified by its keywords. *)
Example classify_intent_string_confidence :
  FlowRouter.classify_intent ascii_lower ascii_strip sample_print sample_repr sample_format
    (sample_loads [("reply", PDict [("flow", PStr "creative_flow");
                                    ("confidence", PStr "0.9")])])
    (sample_router (Ok (FlowRouter.ChatResponse [Some "reply"])))
    "Pause all underperforming campaigns"
  = Ok (PStr "optimization_flow", PFloat 0x1.5555555555555p-1%float).
Proof. vm_compute. reflexivity. Qed.

(** A reasoning that the output stream cannot encode: the print of line
    149 raises inside the [try] block, the [except] clause reports the
    error in ASCII, and the query is classified by its keywords. *)
#[warnings="-inexact-float"]
Example classify_intent_unprintable_reasoning :
  FlowRouter.classify_intent ascii_lower ascii_strip
    (ascii_print
       (ascii_encode_error
          ("[Router] Reasoning: Le mot café indique une campagne" +:+ nl) 30))
    sample_repr sample_format
    (sample_loads [("reply", PDict [("flow", PStr "creative_flow");
                                    ("confidence", PFloat 0.9%float);
                                    ("reasoning", PStr "Le mot café indique une campagne")])])
    (sample_router (Ok (FlowRouter.ChatResponse [Some "reply"])))
    "Pause all underperforming campaigns"
  = Ok (PStr "optimization_flow", PFloat 0x1.5555555555555p-1%float).
Proof. vm_compute. reflexivity. Qed.

(** An entry point that raises, behind a model that cannot be reached: the
    envelope reports the failure together with the routing of the fallback. *)
Example execute_flow_with_failing_flow :
  FlowRouter.execute_flow ascii_lower ascii_strip sample_print sample_repr sample_format
    (sample_loads [])
    (failing_flow "campaign service down") (failing_flow "optimizer down")
    (failing_flow "analytics down") (failing_flow "compliance down")
    (failing_flow "creative down")
    (sample_router (Raise (new_exn (UserError "APIConnectionError") "API Error")))
    "Pause all underperforming campaigns"
  = Ok (FlowRouter.Envelope
          (FlowRouter.RoutingResult (PStr "optimization_flow")
             (PFloat 0x1.5555555555555p-1%float)
             "Pause all underperforming campaigns"
             (FlowRouter.FlowInfo
                ["pause"; "optimize"; "adjust"; "improve"; "reduce spend";
                 "underperforming"; "increase performance"; "scale"; "bid adjustment"]
                "Optimizing campaign performance, pausing underperformers, adjusting budgets"
                ["Pause all underperforming campaigns";
                 "Optimize campaigns with high CPA";
                 "Adjust bids for better performance";
                 "Reduce spend on low-performing strategies"]))
          None (Some "optimizer down") false).
Proof. vm_compute. reflexivity. Qed.


(** A query that holds a character the stream cannot encode is routed and
    executed all the same on a stream that takes every line. *)
Example execute_flow_with_printable_query :
  exists envelope,
    FlowRouter.execute_flow ascii_lower ascii_strip sample_print sample_repr sample_format
      (sample_loads [])
      (returning_flow PNone) (returning_flow PNone) (returning_flow PNone)
      (returning_flow PNone) (returning_flow PNone)
      (sample_router (Raise (new_exn (UserError "APIConnectionError") "API Error")))
      "Pause café campaigns" = Ok envelope /\
    FlowRouter.success envelope = true /\
    FlowRouter.flow_name (FlowRouter.routing envelope) = PStr "optimization_flow".
Proof. eexists. split; [vm_compute; reflexivity|]. split; reflexivity. Qed.

(** ** Construction of the router *)

(** C9.  With no API key argument and no [OPENAI_API_KEY] in the
    environment, [FlowRouter.__init__] raises [ValueError] at once and
    produces no router, and so does the factory [create_router]. *)
Theorem router_init_without_api_key_raises (OpenAI : option string -> FlowRouter.OpenAI_client)
    (environ : gmap string string) :
  environ !! "OPENAI_API_KEY" = None ->
  FlowRouter.__init__ OpenAI None environ
    = Raise (new_exn ValueError
        "OpenAI API key is required. Set OPENAI_API_KEY environment variable or pass it to the constructor.") /\
  FlowRouter.create_router OpenAI None environ = FlowRouter.__init__ OpenAI None environ /\
  forall router, FlowRouter.__init__ OpenAI None environ <> Ok router.
Proof.
  intros Henv. unfold FlowRouter.create_router, FlowRouter.__init__.
  rewrite Henv. cbn [FlowRouter.py_or FlowRouter.truthy negb].
  split; [reflexivity|]. split; [reflexivity|]. intros router. discriminate.
Qed.

Lemma router_init_without_api_key_raises_witness :
  (∅ : gmap string string) !! "OPENAI_API_KEY" = None /\
  FlowRouter.__init__ (fun _ => sample_client (Ok (FlowRouter.ChatResponse []))) None ∅
    = Raise (new_exn ValueError
        "OpenAI API key is required. Set OPENAI_API_KEY environment variable or pass it to the constructor.").
Proof.
  split; [reflexivity|].
  apply (router_init_without_api_key_raises
           (fun _ => sample_client (Ok (FlowRouter.ChatResponse []))) ∅).
  reflexivity.
Defined.

(** With a key, in the argument or in the environment, the router is
    built; an empty string counts as no key. *)
Example router_init_with_argument :
  exists router,
    FlowRouter.__init__ (fun _ => sample_client (Ok (FlowRouter.ChatResponse [])))
      (Some "test_key") ∅ = Ok router /\
    FlowRouter.api_key router = Some "test_key".
Proof. eexists. split; reflexivity. Qed.

Example router_init_with_environment :
  exists router,
    FlowRouter.__init__ (fun _ => sample_client (Ok (FlowRouter.ChatResponse [])))
      None (<["OPENAI_API_KEY" := "sk-env"]> ∅) = Ok router /\
    FlowRouter.api_key router = Some "sk-env".
Proof. eexists. split; vm_compute; reflexivity. Qed.

Example router_init_with_empty_strings :
  forall router,
    FlowRouter.__init__ (fun _ => sample_client (Ok (FlowRouter.ChatResponse [])))
      (Some "") (<["OPENAI_API_KEY" := ""]> ∅) <> Ok router.
Proof. intros router. vm_compute. discriminate. Qed.

(** ** The JSON-RPC client *)

Lemma dict_lookup_present {V : Type} (items : list (string * V)) (key : string) (v : V) :
  dict_lookup items key = Some v ->
  existsb (fun kv => String.eqb (fst kv) key) items = true.
Proof.
  induction items as [|[k w] items IH]; cbn [dict_lookup existsb fst]; [discriminate|].
  destruct (String.eqb k key); [reflexivity|]. exact IH.
Qed.

Lemma dict_lookup_absent {V : Type} (items : list (string * V)) (key : string) :
  dict_lookup items key = None ->
  existsb (fun kv => String.eqb (fst kv) key) items = false.
Proof.
  induction items as [|[k w] items IH]; cbn [dict_lookup existsb fst]; [reflexivity|].
  destruct (String.eqb k key); [discriminate|]. exact IH.
Qed.

(** [call_tool] when the exchange yields a decoded body: the body is
    handled and what the handling raises is not an HTTP failure unless its
    class says so. *)
Lemma call_tool_with_body (json_loads : string -> res pyval)
    (requests_post : MCPClient.http_request -> res pyval) (repr : pyval -> string)
    (self : MCPClient.t) (tool_name : string) (arguments : pyval) (timeout : Z)
    (data : pyval) :
  requests_post (sent_request self tool_name arguments timeout) = Ok data ->
  MCPClient.call_tool json_loads requests_post repr self tool_name arguments timeout
  = (match MCPClient.handle_response json_loads repr data with
     | Ok value => Ok value
     | Raise e =>
         if is_RequestException e then
           Raise (new_exn Exception
                    ("HTTP Error calling MCP tool '" +:+ tool_name +:+ "': " +:+ exn_str e))
         else if is_JSONDecodeError e then
           Raise (new_exn Exception
                    ("Invalid JSON response from MCP server: " +:+ exn_str e))
         else Raise e
     end,
     client_after_call self).
Proof.
  intros Hpost. unfold MCPClient.call_tool, MCPClient._get_next_request_id.
  cbn [MCPClient.request_id MCPClient.server_url MCPClient.api_key].
  fold (sent_request self tool_name arguments timeout). rewrite Hpost. cbn [bind].
  fold (client_after_call self).
  destruct (MCPClient.handle_response json_loads repr data) as [value|e];
    cbn [try_except_clauses]; [reflexivity|].
  destruct (is_RequestException e); [reflexivity|].
  destruct (is_JSONDecodeError e); reflexivity.
Qed.

(** C6, as amended.  When the decoded body holds an [error] object with an
    integer [code] and a string [message], [call_tool] raises an exception
    of the base class [Exception] whose only argument, and text, is
    [MCP Error (<code>): <message>]; it returns no value. *)
Theorem call_tool_rpc_error_raises_exception (json_loads : string -> res pyval)
    (requests_post : MCPClient.http_request -> res pyval) (repr : pyval -> string)
    (self : MCPClient.t) (tool_name : string) (arguments : pyval) (timeout : Z)
    (items error : list (string * pyval)) (code : Z) (message : string) :
  requests_post (sent_request self tool_name arguments timeout) = Ok (PDict items) ->
  dict_lookup items "error" = Some (PDict error) ->
  dict_lookup error "code" = Some (PInt code) ->
  dict_lookup error "message" = Some (PStr message) ->
  MCPClient.call_tool json_loads requests_post repr self tool_name arguments timeout
  = (Raise (new_exn Exception ("MCP Error (" +:+ str_of_int code +:+ "): " +:+ message)),
     client_after_call self).
Proof.
  intros Hpost Herror Hcode Hmessage.
  rewrite (call_tool_with_body _ _ _ _ _ _ _ _ Hpost).
  unfold MCPClient.handle_response. cbn [py_str_in bind].
  rewrite (dict_lookup_present _ _ _ Herror).
  cbn [py_getitem_str]. rewrite Herror. cbn [bind py_get].
  rewrite Hcode, Hmessage. cbn [py_str]. reflexivity.
Qed.

Lemma call_tool_rpc_error_raises_exception_witness :
  fst (MCPClient.call_tool (sample_loads []) (sample_post (Ok body_error_not_found))
         sample_repr (MCPClient.__init__ "https://mcp.example/api/message" "key")
         "get_campaign_info" (PDict [("campaign_id", PInt 7)]) 30)
  = Raise (new_exn Exception "MCP Error (-32000): not found").
Proof.
  rewrite (call_tool_rpc_error_raises_exception (sample_loads [])
             (sample_post (Ok body_error_not_found)) sample_repr
             (MCPClient.__init__ "https://mcp.example/api/message" "key")
             "get_campaign_info" (PDict [("campaign_id", PInt 7)]) 30
             [("error", PDict [("code", PInt (-32000)); ("message", PStr "not found")])]
             [("code", PInt (-32000)); ("message", PStr "not found")]
             (-32000) "not found");
    reflexivity.
Defined.

(** C6 as stated fails at the body
    [{"error": {"code": -32000, "message": "not found"}}]: the exception
    that [call_tool] raises is of the base class [Exception], with the code
    inside its text only; it is no typed remote tool error with the code
    -32000. *)
Lemma call_tool_rpc_error_is_not_typed :
  fst (MCPClient.call_tool (sample_loads []) (sample_post (Ok body_error_not_found))
         sample_repr (MCPClient.__init__ "https://mcp.example/api/message" "key")
         "get_campaign_info" (PDict [("campaign_id", PInt 7)]) 30)
  = Raise (Exn Exception [PStr "MCP Error (-32000): not found"] "MCP Error (-32000): not found") /\
  ~ (exists e,
       fst (MCPClient.call_tool (sample_loads []) (sample_post (Ok body_error_not_found))
              sample_repr (MCPClient.__init__ "https://mcp.example/api/message" "key")
              "get_campaign_info" (PDict [("campaign_id", PInt 7)]) 30) = Raise e /\
       typed_remote_tool_error e (-32000) "not found").
Proof.
  split; [vm_compute; reflexivity|].
  intros (e & Hraise & Hclass & _).
  vm_compute in Hraise. injection Hraise as <-.
  apply Hclass. reflexivity.
Qed.

(** A transport failure comes out in the same class. *)
Example call_tool_transport_failure :
  fst (MCPClient.call_tool (sample_loads [])
         (sample_post (Raise (new_exn RequestException "connection refused")))
         sample_repr (MCPClient.__init__ "https://mcp.example/api/message" "key")
         "get_campaign_info" (PDict [("campaign_id", PInt 7)]) 30)
  = Raise (new_exn Exception
             "HTTP Error calling MCP tool 'get_campaign_info': connection refused").
Proof. vm_compute. reflexivity. Qed.

(** C10.  When the decoded body is an object with neither an [error] key
    nor a [result] key, [call_tool] returns [None] and raises nothing. *)
Theorem call_tool_without_result_or_error_returns_None
    (json_loads : string -> res pyval)
    (requests_post : MCPClient.http_request -> res pyval) (repr : pyval -> string)
    (self : MCPClient.t) (tool_name : string) (arguments : pyval) (timeout : Z)
    (items : list (string * pyval)) :
  requests_post (sent_request self tool_name arguments timeout) = Ok (PDict items) ->
  dict_lookup items "error" = None ->
  dict_lookup items "result" = None ->
  MCPClient.call_tool json_loads requests_post repr self tool_name arguments timeout
  = (Ok PNone, client_after_call self).
Proof.
  intros Hpost Herror Hresult.
  rewrite (call_tool_with_body _ _ _ _ _ _ _ _ Hpost).
  unfold MCPClient.handle_response. cbn [py_str_in bind].
  rewrite (dict_lookup_absent _ _ Herror), (dict_lookup_absent _ _ Hresult).
  reflexivity.
Qed.

Lemma call_tool_without_result_or_error_returns_None_witness :
  MCPClient.call_tool (sample_loads []) (sample_post (Ok body_without_result_or_error))
    sample_repr (MCPClient.__init__ "https://mcp.example/api/message" "key")
    "find_organizations" (PDict []) 30
  = (Ok PNone, MCPClient.Build "https://mcp.example/api/message" "key" 1).
Proof.
  apply (call_tool_without_result_or_error_returns_None (sample_loads [])
           (sample_post (Ok body_without_result_or_error)) sample_repr
           (MCPClient.__init__ "https://mcp.example/api/message" "key")
           "find_organizations" (PDict []) 30
           [("jsonrpc", PStr "2.0"); ("id", PInt 1)]);
    reflexivity.
Defined.

(** *** The result of a success response *)

(** The content envelope [{content: [{type: "text", text: s}, ...]}] with a
    text that decodes: the decoded value is returned. *)
Lemma unwrap_result_decoded_text (json_loads : string -> res pyval)
    (items first : list (string * pyval)) (rest : list pyval) (text : string) (v : pyval) :
  dict_lookup items "content" = Some (PList (PDict first :: rest)) ->
  dict_lookup first "type" = Some (PStr "text") ->
  dict_lookup first "text" = Some (PStr text) ->
  json_loads text = Ok v ->
  MCPClient.unwrap_result json_loads (PDict items) = Ok v.
Proof.
  intros Hcontent Htype Htext Hloads. unfold MCPClient.unwrap_result.
  rewrite Hcontent. cbn [py_get bind]. rewrite Htype. cbn [py_eq_str String.eqb].
  rewrite Htext. change (String.eqb "text" "text") with true. cbn [MCPClient.loads].
  rewrite Hloads. reflexivity.
Qed.

(** The same envelope with a text on which [json.loads] raises: the inner
    [except] clause returns the raw text for a [JSONDecodeError], and lets
    any other exception pass. *)
Lemma unwrap_result_undecoded_text (json_loads : string -> res pyval)
    (items first : list (string * pyval)) (rest : list pyval) (text : string) (e : exn) :
  dict_lookup items "content" = Some (PList (PDict first :: rest)) ->
  dict_lookup first "type" = Some (PStr "text") ->
  dict_lookup first "text" = Some (PStr text) ->
  json_loads text = Raise e ->
  MCPClient.unwrap_result json_loads (PDict items)
  = if is_JSONDecodeError e then Ok (PStr text) else Raise e.
Proof.
  intros Hcontent Htype Htext Hloads. unfold MCPClient.unwrap_result.
  rewrite Hcontent. cbn [py_get bind]. rewrite Htype.
  change (py_eq_str (PStr "text") "text") with true. cbn iota.
  rewrite Htext. cbn [MCPClient.loads]. rewrite Hloads. cbn [try_except_clauses].
  destruct (is_JSONDecodeError e); reflexivity.
Qed.

(** A result whose [content], if it has one that is a non-empty list,
    starts with an object: unless that object is a text item, the result
    is returned unchanged. *)
Lemma unwrap_result_unchanged (json_loads : string -> res pyval) (result : pyval) :
  (forall items first rest,
     result = PDict items ->
     dict_lookup items "content" = Some (PList (first :: rest)) ->
     exists fields, first = PDict fields /\ dict_lookup fields "type" <> Some (PStr "text")) ->
  MCPClient.unwrap_result json_loads result = Ok result.
Proof.
  intros Hshape. unfold MCPClient.unwrap_result.
  destruct result as [| | | | | |items]; try reflexivity.
  destruct (dict_lookup items "content") as [content|] eqn:Hcontent; [|reflexivity].
  destruct content as [| | | | |l|]; try reflexivity.
  destruct l as [|first rest]; [reflexivity|].
  destruct (Hshape items first rest eq_refl Hcontent) as (fields & -> & Htype).
  cbn [py_get bind].
  destruct (dict_lookup fields "type") as [type|]; [|reflexivity].
  destruct type as [| | | |s| |]; try reflexivity.
  cbn [py_eq_str].
  destruct (String.eqb_spec s "text") as [->|_]; [|reflexivity].
  exfalso. apply Htype. reflexivity.
Qed.

(** The content envelope through [call_tool]: a success response whose
    result is [{content: [{type: "text", text: s}, ...]}] yields the value
    that [json.loads] decodes [s] to, and [s] itself when [json.loads]
    raises [JSONDecodeError].  Any other exception of [json.loads] (a
    [ValueError] for an integer of too many digits, a [RecursionError])
    passes the inner [except] clause and then the two outer ones: it
    escapes from [call_tool] as it is, unless it is a [RequestException],
    which the first outer clause reports as an HTTP error. *)
Theorem call_tool_content_envelope (json_loads : string -> res pyval)
    (requests_post : MCPClient.http_request -> res pyval) (repr : pyval -> string)
    (self : MCPClient.t) (tool_name : string) (arguments : pyval) (timeout : Z)
    (body items first : list (string * pyval)) (rest : list pyval) (text : string) :
  requests_post (sent_request self tool_name arguments timeout) = Ok (PDict body) ->
  dict_lookup body "error" = None ->
  dict_lookup body "result" = Some (PDict items) ->
  dict_lookup items "content" = Some (PList (PDict first :: rest)) ->
  dict_lookup first "type" = Some (PStr "text") ->
  dict_lookup first "text" = Some (PStr text) ->
  MCPClient.call_tool json_loads requests_post repr self tool_name arguments timeout
  = (match json_loads text with
     | Ok value => Ok value
     | Raise e =>
         if is_JSONDecodeError e then Ok (PStr text)
         else if is_RequestException e then
           Raise (new_exn Exception
                    ("HTTP Error calling MCP tool '" +:+ tool_name +:+ "': " +:+ exn_str e))
         else Raise e
     end,
     client_after_call self).
Proof.
  intros Hpost Herror Hresult Hcontent Htype Htext.
  rewrite (call_tool_with_body _ _ _ _ _ _ _ _ Hpost).
  unfold MCPClient.handle_response. cbn [py_str_in bind].
  rewrite (dict_lookup_absent _ _ Herror), (dict_lookup_present _ _ _ Hresult).
  cbn [py_getitem_str]. rewrite Hresult. cbn [bind].
  destruct (json_loads text) as [value|e] eqn:Hloads.
  - rewrite (unwrap_result_decoded_text json_loads items first rest text value);
      auto.
  - rewrite (unwrap_result_undecoded_text json_loads items first rest text e); auto.
    destruct (is_JSONDecodeError e) eqn:Hjson; [reflexivity|].
    destruct (is_RequestException e); [reflexivity|].
    rewrite Hjson. reflexivity.
Qed.

Lemma call_tool_content_envelope_witness :
  MCPClient.call_tool (sample_loads [("[1, 2]", PList [PInt 1; PInt 2])])
    (sample_post (Ok (PDict [("result",
       PDict [("content", PList [PDict [("type", PStr "text"); ("text", PStr "[1, 2]")]])])])))
    sample_repr (MCPClient.__init__ "https://mcp.example/api/message" "key")
    "find_organizations" (PDict []) 30
  = (Ok (PList [PInt 1; PInt 2]),
     MCPClient.Build "https://mcp.example/api/message" "key" 1).
Proof.
  apply (call_tool_content_envelope (sample_loads [("[1, 2]", PList [PInt 1; PInt 2])])
           (sample_post (Ok (PDict [("result",
              PDict [("content",
                      PList [PDict [("type", PStr "text"); ("text", PStr "[1, 2]")]])])])))
           sample_repr (MCPClient.__init__ "https://mcp.example/api/message" "key")
           "find_organizations" (PDict []) 30
           [("result",
             PDict [("content",
                     PList [PDict [("type", PStr "text"); ("text", PStr "[1, 2]")]])])]
           [("content", PList [PDict [("type", PStr "text"); ("text", PStr "[1, 2]")]])]
           [("type", PStr "text"); ("text", PStr "[1, 2]")] [] "[1, 2]");
    reflexivity.
Defined.

(** A text that holds an integer of five thousand digits: [json.loads]
    raises a [ValueError] that is no [JSONDecodeError], and [call_tool]
    raises it where a text that is not JSON is returned raw. *)
Example call_tool_text_with_huge_integer :
  fst (MCPClient.call_tool
         (fun _ => Raise (new_exn ValueError
            "Exceeds the limit (4300 digits) for integer string conversion: value has 5000 digits; use sys.set_int_max_str_digits() to increase the limit"))
         (sample_post (Ok (PDict [("result",
            PDict [("content", PList [PDict [("type", PStr "text"); ("text", PStr "1...1")]])])])))
         sample_repr (MCPClient.__init__ "https://mcp.example/api/message" "key")
         "find_organizations" (PDict []) 30)
  = Raise (new_exn ValueError
      "Exceeds the limit (4300 digits) for integer string conversion: value has 5000 digits; use sys.set_int_max_str_digits() to increase the limit").
Proof. vm_compute. reflexivity. Qed.

(** C7 at the body [{"jsonrpc": "2.0", "id": 1, "result": {"content":
    ["plain text"]}}]: the result is not a content envelope, since the
    first item of [content] is a string and not an object, yet [call_tool]
    does not return it: [content[0].get] raises [AttributeError], which
    neither [except] clause catches. *)
Theorem call_tool_content_of_strings_raises :
  MCPClient.call_tool (sample_loads []) (sample_post (Ok body_content_of_strings))
    sample_repr (MCPClient.__init__ "https://mcp.example/api/message" "key")
    "find_organizations" (PDict []) 30
  = (Raise (new_exn AttributeError "'str' object has no attribute 'get'"),
     MCPClient.Build "https://mcp.example/api/message" "key" 1).
Proof.
  rewrite (call_tool_with_body _ _ _ _ _ _ _ body_content_of_strings); reflexivity.
Qed.

(** A text item whose [text] is a number: [json.loads] refuses it with a
    [TypeError], which is not the [JSONDecodeError] that the inner [except]
    clause catches. *)
Example call_tool_text_not_a_string :
  fst (MCPClient.call_tool (sample_loads [])
         (sample_post (Ok (PDict [("result",
            PDict [("content", PList [PDict [("type", PStr "text"); ("text", PInt 5)]])])])))
         sample_repr (MCPClient.__init__ "https://mcp.example/api/message" "key")
         "find_organizations" (PDict []) 30)
  = Raise (new_exn TypeError "the JSON object must be str, bytes or bytearray, not int").
Proof. vm_compute. reflexivity. Qed.

(** The content envelope at work: a JSON text is decoded, another text is
    returned raw, a plain result is returned as it is. *)
Example call_tool_decodes_text :
  fst (MCPClient.call_tool (sample_loads [("[1, 2]", PList [PInt 1; PInt 2])])
         (sample_post (Ok (PDict [("result",
            PDict [("content", PList [PDict [("type", PStr "text"); ("text", PStr "[1, 2]")]])])])))
         sample_repr (MCPClient.__init__ "https://mcp.example/api/message" "key")
         "find_organizations" (PDict []) 30)
  = Ok (PList [PInt 1; PInt 2]).
Proof. vm_compute. reflexivity. Qed.

Example call_tool_keeps_raw_text :
  fst (MCPClient.call_tool (sample_loads [("[1, 2]", PList [PInt 1; PInt 2])])
         (sample_post (Ok (PDict [("result",
            PDict [("content", PList [PDict [("type", PStr "text"); ("text", PStr "done")]])])])))
         sample_repr (MCPClient.__init__ "https://mcp.example/api/message" "key")
         "find_organizations" (PDict []) 30)
  = Ok (PStr "done").
Proof. vm_compute. reflexivity. Qed.

Example call_tool_plain_result :
  fst (MCPClient.call_tool (sample_loads [])
         (sample_post (Ok (PDict [("result", PDict [("campaigns", PList [])])])))
         sample_repr (MCPClient.__init__ "https://mcp.example/api/message" "key")
         "find_campaigns" (PDict [("organization_id", PInt 100048)]) 30)
  = Ok (PDict [("campaigns", PList [])]).
Proof. vm_compute. reflexivity. Qed.

(** ** The tool catalog *)

Lemma dict_literal_forall (P : string -> MCPToolWrapper.Tool -> Prop)
    (items : list (string * MCPToolWrapper.Tool)) :
  Forall (fun item => P (fst item) (snd item)) items ->
  map_Forall P (MCPToolWrapper.dict_literal items).
Proof.
  unfold MCPToolWrapper.dict_literal.
  assert (Hgen : forall m : gmap string MCPToolWrapper.Tool,
            map_Forall P m ->
            Forall (fun item => P (fst item) (snd item)) items ->
            map_Forall P (fold_left (fun m item => <[fst item := snd item]> m) items m)).
  { induction items as [|item items IH]; intros m Hm Hitems; cbn [fold_left].
    - exact Hm.
    - inversion Hitems as [|? ? Hitem Hrest]; subst.
      apply IH; [|exact Hrest].
      apply map_Forall_insert_2; assumption. }
  intros Hitems. apply Hgen; [apply map_Forall_empty|exact Hitems].
Qed.

(** Every tool of the catalog is registered under its own name and runs the
    closure that [create_tool_func] builds for that name. *)
Lemma catalog_tools_call_their_name (json_loads : string -> res pyval)
    (requests_post : MCPClient.http_request -> res pyval) (repr : pyval -> string)
    (json_dumps : pyval -> res string) (server_url api_key tool_name : string)
    (tool : MCPToolWrapper.Tool) :
  snd (MCPToolWrapper.wrap_mcp_tools json_loads requests_post repr json_dumps
         server_url api_key) !! tool_name = Some tool ->
  MCPToolWrapper.name tool = tool_name /\
  MCPToolWrapper.func tool
    = MCPToolWrapper.create_tool_func json_loads requests_post repr json_dumps tool_name.
Proof.
  cbn [snd MCPToolWrapper.wrap_mcp_tools].
  revert tool_name tool.
  apply (dict_literal_forall
           (fun tool_name tool =>
              MCPToolWrapper.name tool = tool_name /\
              MCPToolWrapper.func tool
                = MCPToolWrapper.create_tool_func json_loads requests_post repr
                    json_dumps tool_name)).
  unfold MCPToolWrapper.catalog_items.
  repeat (apply List.Forall_cons; [split; reflexivity|]).
  apply List.Forall_nil.
Qed.

(** C8, as amended.  Invoking a tool of the catalog built by
    [wrap_mcp_tools] never raises: it returns a string.  When the
    underlying [call_tool] fails with an exception, the tool returns the
    ordinary string [Error executing <tool name>: <text of the exception>],
    and the shared client has advanced as the call left it. *)
Theorem catalog_tool_failure_returns_error_text (json_loads : string -> res pyval)
    (requests_post : MCPClient.http_request -> res pyval) (repr : pyval -> string)
    (json_dumps : pyval -> res string) (server_url api_key tool_name : string)
    (tool : MCPToolWrapper.Tool) (kwargs : list (string * pyval))
    (mcp_client : MCPClient.t) :
  snd (MCPToolWrapper.wrap_mcp_tools json_loads requests_post repr json_dumps
         server_url api_key) !! tool_name = Some tool ->
  (exists text, fst (MCPToolWrapper.func tool kwargs mcp_client) = Ok (PStr text)) /\
  (forall e,
     fst (MCPClient.call_tool json_loads requests_post repr mcp_client tool_name
            (PDict kwargs) 30) = Raise e ->
     MCPToolWrapper.func tool kwargs mcp_client
     = (Ok (PStr ("Error executing " +:+ tool_name +:+ ": " +:+ exn_str e)),
        snd (MCPClient.call_tool json_loads requests_post repr mcp_client tool_name
               (PDict kwargs) 30))).
Proof.
  intros Hlookup.
  destruct (catalog_tools_call_their_name _ _ _ _ _ _ _ _ Hlookup) as [_ ->].
  unfold MCPToolWrapper.create_tool_func.
  destruct (MCPClient.call_tool json_loads requests_post repr mcp_client tool_name
              (PDict kwargs) 30) as [called mcp_client'].
  cbn [fst snd]. split.
  - destruct called as [result|e]; cbn [bind try_except]; [|eexists; reflexivity].
    destruct (MCPToolWrapper.is_dict_or_list result); [|eexists; reflexivity].
    destruct (json_dumps result); cbn [bind]; eexists; reflexivity.
  - intros e ->. reflexivity.
Qed.

Lemma catalog_tool_failure_returns_error_text_witness :
  exists tool,
    snd (MCPToolWrapper.wrap_mcp_tools (sample_loads [])
           (sample_post (Ok body_error_not_found)) sample_repr sample_dumps
           "https://mcp.example/api/message" "key") !! "delete_campaign" = Some tool /\
    MCPToolWrapper.func tool [("campaign_id", PInt 7)]
      (MCPClient.__init__ "https://mcp.example/api/message" "key")
    = (Ok (PStr "Error executing delete_campaign: MCP Error (-32000): not found"),
       MCPClient.Build "https://mcp.example/api/message" "key" 1).
Proof.
  exists (MCPToolWrapper.create_tool (sample_loads [])
            (sample_post (Ok body_error_not_found)) sample_repr sample_dumps
            "delete_campaign"
            "Delete a campaign. Args: campaign_id (int). Returns: Deletion confirmation.").
  assert (Hlookup :
    snd (MCPToolWrapper.wrap_mcp_tools (sample_loads [])
           (sample_post (Ok body_error_not_found)) sample_repr sample_dumps
           "https://mcp.example/api/message" "key") !! "delete_campaign"
    = Some (MCPToolWrapper.create_tool (sample_loads [])
              (sample_post (Ok body_error_not_found)) sample_repr sample_dumps
              "delete_campaign"
              "Delete a campaign. Args: campaign_id (int). Returns: Deletion confirmation."))
    by (vm_compute; reflexivity).
  split; [exact Hlookup|].
  apply (proj2 (catalog_tool_failure_returns_error_text (sample_loads [])
                  (sample_post (Ok body_error_not_found)) sample_repr sample_dumps
                  "https://mcp.example/api/message" "key" "delete_campaign" _
                  [("campaign_id", PInt 7)]
                  (MCPClient.__init__ "https://mcp.example/api/message" "key") Hlookup)
               (new_exn Exception "MCP Error (-32000): not found")).
  vm_compute. reflexivity.
Defined.

(** C8 as stated fails for the tool [find_campaigns] behind a server that
    cannot be reached: the underlying [call_tool] raises, and the tool
    returns an ordinary string. *)
Lemma catalog_tool_failure_is_ordinary_value :
  exists tool,
    snd (MCPToolWrapper.wrap_mcp_tools (sample_loads [])
           (sample_post (Raise (new_exn RequestException "connection refused")))
           sample_repr sample_dumps
           "https://mcp.example/api/message" "key") !! "find_campaigns" = Some tool /\
    fst (MCPClient.call_tool (sample_loads [])
           (sample_post (Raise (new_exn RequestException "connection refused")))
           sample_repr (MCPClient.__init__ "https://mcp.example/api/message" "key")
           "find_campaigns" (PDict [("organization_id", PInt 100048)]) 30)
    = Raise (new_exn Exception
               "HTTP Error calling MCP tool 'find_campaigns': connection refused") /\
    fst (MCPToolWrapper.func tool [("organization_id", PInt 100048)]
           (MCPClient.__init__ "https://mcp.example/api/message" "key"))
    = Ok (PStr "Error executing find_campaigns: HTTP Error calling MCP tool 'find_campaigns': connection refused").
Proof.
  eexists. split; [vm_compute; reflexivity|].
  split; vm_compute; reflexivity.
Qed.

(** The catalog holds the 28 tools. *)
Example catalog_size :
  size (snd (MCPToolWrapper.wrap_mcp_tools (sample_loads []) (sample_post (Ok PNone))
               sample_repr sample_dumps "https://mcp.example/api/message" "key")) = 28%nat.
Proof. vm_compute. reflexivity. Qed.

(** * Further properties *)

(** ** The keyword fallback, continued *)

Lemma fallback_confidence_saturates (n : Z) :
  3 <= n <= 10 -> FlowRouter.fallback_confidence n = 1.0%float.
Proof.
  intros Hrange.
  assert (Hin : In (Z.to_nat n) (seq 3 8)) by (apply in_seq; lia).
  rewrite <- (Z2Nat.id n) by lia.
  cbn [seq In] in Hin.
  repeat (destruct Hin as [<-|Hin]; [vm_compute; reflexivity|]).
  destruct Hin.
Qed.

#[warnings="-inexact-float"]
Lemma fallback_confidence_low_only_at_zero (n : Z) :
  0 <= n <= 10 -> FlowRouter.fallback_confidence n = 0.3%float -> n = 0.
Proof.
  intros Hrange Hlow.
  destruct (Z.eq_dec n 0) as [Hzero|Hpositive]; [exact Hzero|exfalso].
  assert (Hall : forallb (fun k => negb (PrimFloat.eqb (FlowRouter.fallback_confidence k)
                                           0x1.3333333333333p-2%float))
                   (map Z.of_nat (seq 1 10)) = true)
    by (vm_compute; reflexivity).
  rewrite forallb_forall in Hall.
  assert (Hn : negb (PrimFloat.eqb (FlowRouter.fallback_confidence n)
                       0x1.3333333333333p-2%float) = true).
  { apply Hall. rewrite <- (Z2Nat.id n) by lia. apply in_map, in_seq. lia. }
  rewrite Hlow in Hn. vm_compute in Hn. discriminate Hn.
Qed.

(** The default of the fallback.  No keyword of any flow occurs in the
    lower-cased query exactly when [_fallback_classification] answers
    [campaign_setup_flow], the flow declared first, with the confidence
    0.3. *)
#[warnings="-inexact-float"]
Theorem fallback_default_iff_no_keyword (str_lower : string -> string) (query : string) :
  (forall entry, In entry FlowRouter.FLOW_PATTERNS -> keyword_count str_lower query (snd entry) = 0) <->
  FlowRouter._fallback_classification str_lower query
    = Ok (PStr "campaign_setup_flow", PFloat 0.3%float).
Proof.
  destruct (fallback_classification_result str_lower query)
    as (before & flow & info & after & Hsplit & Hbefore & Hafter & Hresult).
  assert (Hwinner : In (flow, info) FlowRouter.FLOW_PATTERNS)
    by (rewrite Hsplit; apply in_or_app; right; left; reflexivity).
  split.
  - intros Hzero.
    assert (Hcount : keyword_count str_lower query info = 0) by apply (Hzero (flow, info) Hwinner).
    destruct before as [|earlier before].
    + cbn [app] in Hsplit. unfold FlowRouter.FLOW_PATTERNS in Hsplit.
      injection Hsplit as Hflow _ _. subst flow.
      rewrite Hresult, Hcount. reflexivity.
    + exfalso.
      assert (Hlt : keyword_count str_lower query (snd earlier) < keyword_count str_lower query info)
        by (apply Hbefore; left; reflexivity).
      pose proof (keyword_count_range str_lower query (snd earlier)). lia.
  - intros Hdefault entry Hentry.
    rewrite Hresult in Hdefault. injection Hdefault as _ Hconfidence.
    assert (Hcount : keyword_count str_lower query info = 0).
    { apply fallback_confidence_low_only_at_zero; [|exact Hconfidence].
      apply (winner_count_range str_lower query flow info Hwinner). }
    pose proof (keyword_count_range str_lower query (snd entry)) as Hrange.
    rewrite Hsplit in Hentry.
    apply in_app_or in Hentry as [Hin|[<-|Hin]].
    + specialize (Hbefore entry Hin). lia.
    + exact Hcount.
    + specialize (Hafter entry Hin). lia.
Qed.

(** The four levels of the fallback confidence: 0.3 for no keyword, a
    third for one, two thirds for two, and 1.0 from three keywords of the
    winning flow on. *)
#[warnings="-inexact-float"]
Theorem fallback_confidence_levels (str_lower : string -> string) (query : string) :
  exists flow info confidence,
    In (flow, info) FlowRouter.FLOW_PATTERNS /\
    FlowRouter._fallback_classification str_lower query = Ok (PStr flow, PFloat confidence) /\
    ((keyword_count str_lower query info = 0 /\ confidence = 0.3%float) \/
     (keyword_count str_lower query info = 1 /\ confidence = 0x1.5555555555555p-2%float) \/
     (keyword_count str_lower query info = 2 /\ confidence = 0x1.5555555555555p-1%float) \/
     (3 <= keyword_count str_lower query info /\ confidence = 1.0%float)).
Proof.
  destruct (fallback_classification_result str_lower query)
    as (before & flow & info & after & Hsplit & _ & _ & Hresult).
  assert (Hwinner : In (flow, info) FlowRouter.FLOW_PATTERNS)
    by (rewrite Hsplit; apply in_or_app; right; left; reflexivity).
  exists flow, info, (FlowRouter.fallback_confidence (keyword_count str_lower query info)).
  split; [exact Hwinner|]. split; [exact Hresult|].
  pose proof (winner_count_range str_lower query flow info Hwinner) as Hrange.
  destruct (Z.eq_dec (keyword_count str_lower query info) 0) as [H0|H0];
    [left; rewrite H0; split; reflexivity|].
  destruct (Z.eq_dec (keyword_count str_lower query info) 1) as [H1|H1];
    [right; left; rewrite H1; split; reflexivity|].
  destruct (Z.eq_dec (keyword_count str_lower query info) 2) as [H2|H2];
    [right; right; left; rewrite H2; split; reflexivity|].
  right; right; right. split; [lia|].
  apply fallback_confidence_saturates. lia.
Qed.

(** ** Construction of the router, continued *)

(** A router that [__init__] builds holds a non-empty key: the argument
    when it is a non-empty string, and otherwise the value of
    [OPENAI_API_KEY] in the environment; an empty-string argument does not
    mask the environment.  The client is built from that same key. *)
Theorem router_init_key_is_nonempty (OpenAI : option string -> FlowRouter.OpenAI_client)
    (openai_api_key : option string) (environ : gmap string string)
    (router : FlowRouter.t) :
  FlowRouter.__init__ OpenAI openai_api_key environ = Ok router ->
  exists key,
    FlowRouter.api_key router = Some key /\
    key <> "" /\
    FlowRouter.client router = OpenAI (Some key) /\
    (openai_api_key = Some key \/
     ((openai_api_key = None \/ openai_api_key = Some "") /\
      environ !! "OPENAI_API_KEY" = Some key)).
Proof.
  unfold FlowRouter.__init__, FlowRouter.py_or.
  destruct openai_api_key as [[|c k]|]; cbn [FlowRouter.truthy negb].
  - destruct (environ !! "OPENAI_API_KEY") as [[|c k]|] eqn:Henv;
      cbn [FlowRouter.truthy negb]; try discriminate.
    intros [= <-]. exists (String c k). cbn.
    repeat split; [discriminate|]. right. split; [right; reflexivity|reflexivity].
  - intros [= <-]. exists (String c k). cbn.
    repeat split; [discriminate|]. left. reflexivity.
  - destruct (environ !! "OPENAI_API_KEY") as [[|c k]|] eqn:Henv;
      cbn [FlowRouter.truthy negb]; try discriminate.
    intros [= <-]. exists (String c k). cbn.
    repeat split; [discriminate|]. right. split; [left; reflexivity|reflexivity].
Qed.

(** An empty-string argument with a key in the environment. *)
Lemma router_init_key_is_nonempty_witness :
  exists router key,
    FlowRouter.__init__ (fun _ => sample_client (Ok (FlowRouter.ChatResponse [])))
      (Some "") (<["OPENAI_API_KEY" := "sk-env"]> ∅) = Ok router /\
    FlowRouter.api_key router = Some key /\ key <> "".
Proof.
  eexists.
  assert (Hbuilt :
    FlowRouter.__init__ (fun _ => sample_client (Ok (FlowRouter.ChatResponse [])))
      (Some "") (<["OPENAI_API_KEY" := "sk-env"]> ∅)
    = Ok (FlowRouter.Build (Some "sk-env")
            (sample_client (Ok (FlowRouter.ChatResponse [])))))
    by (vm_compute; reflexivity).
  destruct (router_init_key_is_nonempty _ _ _ _ Hbuilt) as (key & Hkey & Hnonempty & _).
  exists key. split; [exact Hbuilt|]. split; assumption.
Defined.

(** ** The command line: main.py *)

Lemma truthy_iff (x : option string) :
  FlowRouter.truthy x = true <-> exists value, x = Some value /\ value <> "".
Proof.
  destruct x as [[|c s]|]; cbn [FlowRouter.truthy]; split.
  - discriminate.
  - intros (value & [= <-] & Hne). exfalso. apply Hne. reflexivity.
  - intros _. exists (String c s). split; [reflexivity|discriminate].
  - reflexivity.
  - discriminate.
  - intros (value & Hvalue & _). discriminate.
Qed.

(** The loop of lines 143-146 collects nothing exactly when each of the
    three variables is set to a non-empty string. *)
Lemma missing_vars_empty_iff (environ : gmap string string) :
  Main.missing_vars environ = [] <->
  (forall var, In var ["OPENAI_API_KEY"; "MCP_SERVER_URL"; "MCP_API_KEY"] ->
     exists value, environ !! var = Some value /\ value <> "").
Proof.
  unfold Main.missing_vars, Main.required_vars.
  cbn [fold_left fst snd].
  destruct (FlowRouter.truthy (environ !! "OPENAI_API_KEY")) eqn:Hopenai;
    destruct (FlowRouter.truthy (environ !! "MCP_SERVER_URL")) eqn:Hurl;
    destruct (FlowRouter.truthy (environ !! "MCP_API_KEY")) eqn:Hkey;
    cbn [negb app]; split; try discriminate; try reflexivity.
  1: { intros _ var [<-|[<-|[<-|[]]]]; apply truthy_iff; assumption. }
  all: intros Hall.
  all: try (assert (Hset : FlowRouter.truthy (environ !! "OPENAI_API_KEY") = true)
              by (apply truthy_iff, Hall; cbn; tauto); congruence).
  all: try (assert (Hset : FlowRouter.truthy (environ !! "MCP_SERVER_URL") = true)
              by (apply truthy_iff, Hall; cbn; tauto); congruence).
  all: try (assert (Hset : FlowRouter.truthy (environ !! "MCP_API_KEY") = true)
              by (apply truthy_iff, Hall; cbn; tauto); congruence).
Qed.

Section CommandLine.

Variable str_lower : string -> string.
Variable str_strip : string -> string.
Variable print : string -> res unit.
Variable repr : pyval -> string.
Variable format_spec_2f : pyval -> string.
Variable json_loads : string -> res pyval.
Variable run_campaign_setup_flow : string -> res pyval.
Variable run_optimization_flow : string -> res pyval.
Variable run_analytics_flow : string -> res pyval.
Variable run_compliance_flow : string -> res pyval.
Variable run_creative_flow : string -> res pyval.

#[warnings="-notation-for-abbreviation"]
Local Notation classify_intent :=
  (FlowRouter.classify_intent str_lower str_strip print repr format_spec_2f json_loads).
#[warnings="-notation-for-abbreviation"]
Local Notation route :=
  (FlowRouter.route str_lower str_strip print repr format_spec_2f json_loads).
#[warnings="-notation-for-abbreviation"]
Local Notation flows_table :=
  (executor_table run_campaign_setup_flow run_optimization_flow run_analytics_flow
     run_compliance_flow run_creative_flow).
#[warnings="-notation-for-abbreviation"]
Local Notation run_selected_flow :=
  (FlowRouter.run_selected_flow repr run_campaign_setup_flow run_optimization_flow
     run_analytics_flow run_compliance_flow run_creative_flow).
#[warnings="-notation-for-abbreviation"]
Local Notation execute_flow :=
  (FlowRouter.execute_flow str_lower str_strip print repr format_spec_2f json_loads
     run_campaign_setup_flow run_optimization_flow run_analytics_flow
     run_compliance_flow run_creative_flow).
#[warnings="-notation-for-abbreviation"]
Local Notation execute_query :=
  (Main.execute_query str_lower str_strip print repr format_spec_2f json_loads
     run_campaign_setup_flow run_optimization_flow run_analytics_flow
     run_compliance_flow run_creative_flow).
#[warnings="-notation-for-abbreviation"]
Local Notation validate_environment := (Main.validate_environment print).

(** The loop that prints the missing variables goes through, or raises
    what [print] raised. *)
Lemma for_each_print_cases (lines : list string) :
  for_each print lines = Ok tt \/
  exists e, for_each print lines = Raise e /\ raised_by_print print e.
Proof.
  induction lines as [|line lines IH]; cbn [for_each]; [left; reflexivity|].
  destruct (print line) as [[]|e] eqn:Hline; cbn [bind]; [exact IH|].
  right. exists e. split; [reflexivity|]. exists line. exact Hline.
Qed.

(** What [validate_environment] does when a variable is missing. *)
Lemma validate_environment_missing (environ : gmap string string) :
  Main.missing_vars environ <> [] ->
  validate_environment environ = Ok false \/
  exists e, validate_environment environ = Raise e /\ raised_by_print print e.
Proof.
  intros Hmissing. unfold Main.validate_environment, Main.print_colored.
  destruct (Main.missing_vars environ) as [|first rest]; [contradiction|].
  destruct (print (Main.Colors.FAIL +:+ _ +:+ Main.Colors.ENDC)) as [[]|e] eqn:Hhead;
    cbn [bind]; [|right; exists e; split; [reflexivity|eexists; exact Hhead]].
  destruct (for_each_print_cases (first :: rest)) as [->|(e & -> & Hraised)]; cbn [bind];
    [|right; exists e; split; [reflexivity|exact Hraised]].
  destruct (print (nl +:+ Main.Colors.WARNING +:+ _)) as [[]|e] eqn:Htail; cbn [bind];
    [|right; exists e; split; [reflexivity|eexists; exact Htail]].
  left. reflexivity.
Qed.

Lemma validate_environment_true (environ : gmap string string) :
  validate_environment environ = Ok true -> Main.missing_vars environ = [].
Proof.
  intros Hvalid.
  destruct (Main.missing_vars environ) as [|first rest] eqn:Hmissing; [reflexivity|exfalso].
  destruct (validate_environment_missing environ) as [Heq|(e & Heq & _)];
    [rewrite Hmissing; discriminate| |]; rewrite Heq in Hvalid; discriminate Hvalid.
Qed.



(** The [except] clause of [execute_query] answers [False] or raises what
    its own [print] raised. *)
Lemma execute_query_clause_cases (cause : exn) :
  let clause :=
    (run! Main.print_colored print
            (nl +:+ Main.Colors.FAIL +:+ Main.cross_mark +:+ " Error: " +:+ exn_str cause
             +:+ Main.Colors.ENDC)
            Main.Colors.FAIL in
     Ok false) in
  clause = Ok false \/
  exists e,
    clause = Raise e /\
    Main.print_colored print
      (nl +:+ Main.Colors.FAIL +:+ Main.cross_mark +:+ " Error: " +:+ exn_str cause
       +:+ Main.Colors.ENDC)
      Main.Colors.FAIL = Raise e.
Proof.
  cbv zeta. destruct (Main.print_colored print _ Main.Colors.FAIL) as [[]|e]; cbn [bind].
  - left. reflexivity.
  - right. exists e. split; reflexivity.
Qed.

(** [execute_query] through [execute_flow]. *)
Lemma execute_query_unfolded (router : FlowRouter.t) (query : string) :
  execute_query router query =
  try_except
    (run! Main.print_colored print
            (nl +:+ Main.Colors.OKCYAN +:+ "Processing query..." +:+ Main.Colors.ENDC)
            Main.Colors.OKCYAN in
     let! result := execute_flow router query in
     if FlowRouter.success result then
       run! Main.report_success print repr format_spec_2f result in Ok true
     else
       run! Main.report_failure print result in Ok false)
    (fun cause =>
       run! Main.print_colored print
              (nl +:+ Main.Colors.FAIL +:+ Main.cross_mark +:+ " Error: " +:+ exn_str cause
               +:+ Main.Colors.ENDC)
              Main.Colors.FAIL in
       Ok false).
Proof. reflexivity. Qed.


End CommandLine.


(** A variable set to the empty string fails the validation. *)
Example validate_environment_empty_value :
  Main.validate_environment sample_print
    (<["OPENAI_API_KEY" := "sk-env"]>
       (<["MCP_SERVER_URL" := ""]> (<["MCP_API_KEY" := "key"]> ∅))) = Ok false.
Proof. vm_compute. reflexivity. Qed.

(** On an output stream with the ASCII encoding the bullet of the list of
    missing variables cannot be written, and the validation raises instead
    of answering. *)
Example validate_environment_unprintable_bullet :
  Main.validate_environment
    (ascii_print
       (ascii_encode_error "  • MCP_SERVER_URL: MediaMath MCP server URL" 2))
    (<["OPENAI_API_KEY" := "sk-env"]>
       (<["MCP_SERVER_URL" := ""]> (<["MCP_API_KEY" := "key"]> ∅)))
  = Raise (ascii_encode_error "  • MCP_SERVER_URL: MediaMath MCP server URL" 2).
Proof. vm_compute. reflexivity. Qed.

(** A query whose flow returns, on a stream that takes every line and on
    one with the ASCII encoding: there the check mark of line 176 cannot be
    written, nor the cross of the [except] clause, and [execute_query]
    raises. *)
Example execute_query_answers_true :
  Main.execute_query ascii_lower ascii_strip sample_print sample_repr sample_format
    (sample_loads [])
    (returning_flow PNone) (returning_flow PNone) (returning_flow PNone)
    (returning_flow PNone) (returning_flow PNone)
    (sample_router (Raise (new_exn (UserError "APIConnectionError") "API Error")))
    "Pause all underperforming campaigns"
  = Ok true.
Proof. vm_compute. reflexivity. Qed.

Example execute_query_raises_on_ascii_stream :
  exists e,
    Main.execute_query ascii_lower ascii_strip
      (ascii_print (new_exn UnicodeEncodeError "ordinal not in range(128)"))
      sample_repr sample_format (sample_loads [])
      (returning_flow PNone) (returning_flow PNone) (returning_flow PNone)
      (returning_flow PNone) (returning_flow PNone)
      (sample_router (Raise (new_exn (UserError "APIConnectionError") "API Error")))
      "Pause all underperforming campaigns"
    = Raise e.
Proof. eexists. vm_compute. reflexivity. Qed.

(** ** The JSON-RPC client, continued *)

(** A body with an [error] key never yields a value from [call_tool],
    whatever else the body holds (a [result] beside it is ignored).  When
    the error is an object, the exception is the base [Exception] with the
    text [MCP Error (<code>): <message>], where a missing code reads [-1]
    and a missing message reads [Unknown error]; when the error is anything
    else, [null] included, an [AttributeError] escapes. *)
Theorem call_tool_error_key_always_raises (json_loads : string -> res pyval)
    (requests_post : MCPClient.http_request -> res pyval) (repr : pyval -> string)
    (self : MCPClient.t) (tool_name : string) (arguments : pyval) (timeout : Z)
    (items : list (string * pyval)) (error : pyval) :
  requests_post (sent_request self tool_name arguments timeout) = Ok (PDict items) ->
  dict_lookup items "error" = Some error ->
  exists e,
    MCPClient.call_tool json_loads requests_post repr self tool_name arguments timeout
      = (Raise e, client_after_call self) /\
    match error with
    | PDict fields =>
        e = new_exn Exception
              ("MCP Error ("
               +:+ py_str repr (match dict_lookup fields "code" with
                                | Some code => code
                                | None => PInt (-1)
                                end)
               +:+ "): "
               +:+ py_str repr (match dict_lookup fields "message" with
                                | Some message => message
                                | None => PStr "Unknown error"
                                end))
    | _ => exn_class_of e = AttributeError
    end.
Proof.
  intros Hpost Herror.
  rewrite (call_tool_with_body _ _ _ _ _ _ _ _ Hpost).
  unfold MCPClient.handle_response. cbn [py_str_in bind].
  rewrite (dict_lookup_present _ _ _ Herror).
  cbn [py_getitem_str]. rewrite Herror. cbn [bind].
  destruct error; cbn [py_get bind]; eexists; split; reflexivity.
Qed.

(** The body [{"error": null, "result": {"ok": true}}]: the result is not
    returned. *)
Lemma call_tool_error_key_always_raises_witness :
  exists e,
    MCPClient.call_tool (sample_loads [])
      (sample_post (Ok (PDict [("error", PNone); ("result", PDict [("ok", PBool true)])])))
      sample_repr (MCPClient.__init__ "https://mcp.example/api/message" "key")
      "find_organizations" (PDict []) 30
    = (Raise e, MCPClient.Build "https://mcp.example/api/message" "key" 1) /\
    exn_class_of e = AttributeError.
Proof.
  apply (call_tool_error_key_always_raises (sample_loads [])
           (sample_post (Ok (PDict [("error", PNone);
                                    ("result", PDict [("ok", PBool true)])])))
           sample_repr (MCPClient.__init__ "https://mcp.example/api/message" "key")
           "find_organizations" (PDict []) 30
           [("error", PNone); ("result", PDict [("ok", PBool true)])] PNone);
    reflexivity.
Defined.

(** [list_tools] when the exchange yields a decoded body. *)
Lemma list_tools_with_body (requests_post_untimed : MCPClient.list_request -> res pyval)
    (repr : pyval -> string) (self : MCPClient.t) (data : pyval) :
  requests_post_untimed (sent_list_request self) = Ok data ->
  MCPClient.list_tools requests_post_untimed repr self
  = (match MCPClient.handle_list_response repr data with
     | Ok value => Ok value
     | Raise e =>
         if is_RequestException e then
           Raise (new_exn Exception ("HTTP Error listing tools: " +:+ exn_str e))
         else Raise e
     end,
     client_after_call self).
Proof.
  intros Hpost. unfold MCPClient.list_tools, MCPClient._get_next_request_id.
  cbn [MCPClient.request_id MCPClient.server_url MCPClient.api_key].
  fold (sent_list_request self). rewrite Hpost. cbn [bind].
  fold (client_after_call self).
  destruct (MCPClient.handle_list_response repr data) as [value|e];
    cbn [try_except_clauses]; [reflexivity|].
  destruct (is_RequestException e); reflexivity.
Qed.

(** [list_tools] on an error response.  With a message in the error
    object it raises [Exception] with the text [MCP Error: <message>];
    without one it has no default to fall back on, unlike [call_tool], and
    the [KeyError] of the missing key escapes. *)
Theorem list_tools_error_response (requests_post_untimed : MCPClient.list_request -> res pyval)
    (repr : pyval -> string) (self : MCPClient.t)
    (items fields : list (string * pyval)) :
  requests_post_untimed (sent_list_request self) = Ok (PDict items) ->
  dict_lookup items "error" = Some (PDict fields) ->
  MCPClient.list_tools requests_post_untimed repr self
  = (Raise (match dict_lookup fields "message" with
            | Some message => new_exn Exception ("MCP Error: " +:+ py_str repr message)
            | None => Exn KeyError [PStr "message"] "'message'"
            end),
     client_after_call self).
Proof.
  intros Hpost Herror.
  rewrite (list_tools_with_body _ _ _ _ Hpost).
  unfold MCPClient.handle_list_response. cbn [py_str_in bind].
  rewrite (dict_lookup_present _ _ _ Herror).
  cbn [py_getitem_str]. rewrite Herror. cbn [bind py_getitem_str].
  destruct (dict_lookup fields "message"); reflexivity.
Qed.

Lemma list_tools_error_response_witness :
  MCPClient.list_tools
    (sample_post_untimed (Ok (PDict [("error", PDict [("code", PInt (-32601))])])))
    sample_repr (MCPClient.__init__ "https://mcp.example/api/message" "key")
  = (Raise (Exn KeyError [PStr "message"] "'message'"),
     MCPClient.Build "https://mcp.example/api/message" "key" 1).
Proof.
  apply (list_tools_error_response
           (sample_post_untimed (Ok (PDict [("error", PDict [("code", PInt (-32601))])])))
           sample_repr (MCPClient.__init__ "https://mcp.example/api/message" "key")
           [("error", PDict [("code", PInt (-32601))])] [("code", PInt (-32601))]);
    reflexivity.
Defined.

(** [list_tools] on a success response: the value under [result.tools]
    when the result is an object that has it, and the empty list when the
    body has no result or the result is an object without [tools]. *)
Theorem list_tools_success_response (requests_post_untimed : MCPClient.list_request -> res pyval)
    (repr : pyval -> string) (self : MCPClient.t) (items : list (string * pyval)) :
  requests_post_untimed (sent_list_request self) = Ok (PDict items) ->
  dict_lookup items "error" = None ->
  (forall result, dict_lookup items "result" = Some result -> exists fields, result = PDict fields) ->
  MCPClient.list_tools requests_post_untimed repr self
  = (Ok (match dict_lookup items "result" with
         | Some (PDict fields) =>
             match dict_lookup fields "tools" with
             | Some tools => tools
             | None => PList []
             end
         | _ => PList []
         end),
     client_after_call self).
Proof.
  intros Hpost Herror Hshape.
  rewrite (list_tools_with_body _ _ _ _ Hpost).
  unfold MCPClient.handle_list_response. cbn [py_str_in bind].
  rewrite (dict_lookup_absent _ _ Herror).
  destruct (dict_lookup items "result") as [result|] eqn:Hresult.
  - rewrite (dict_lookup_present _ _ _ Hresult).
    destruct (Hshape result eq_refl) as [fields ->].
    cbn [py_getitem_str]. rewrite Hresult. cbn [bind py_str_in].
    destruct (dict_lookup fields "tools") as [tools|] eqn:Htools.
    + rewrite (dict_lookup_present _ _ _ Htools). cbn [bind py_getitem_str].
      rewrite ?Hresult. cbn [bind py_getitem_str]. rewrite Htools. reflexivity.
    + rewrite (dict_lookup_absent _ _ Htools). reflexivity.
  - rewrite (dict_lookup_absent _ _ Hresult). reflexivity.
Qed.

Lemma list_tools_success_response_witness :
  MCPClient.list_tools
    (sample_post_untimed
       (Ok (PDict [("result",
              PDict [("tools", PList [PDict [("name", PStr "find_campaigns")]])])])))
    sample_repr (MCPClient.__init__ "https://mcp.example/api/message" "key")
  = (Ok (PList [PDict [("name", PStr "find_campaigns")]]),
     MCPClient.Build "https://mcp.example/api/message" "key" 1).
Proof.
  apply (list_tools_success_response
           (sample_post_untimed
              (Ok (PDict [("result",
                     PDict [("tools", PList [PDict [("name", PStr "find_campaigns")]])])])))
           sample_repr (MCPClient.__init__ "https://mcp.example/api/message" "key")
           [("result", PDict [("tools", PList [PDict [("name", PStr "find_campaigns")]])])]).
  - reflexivity.
  - reflexivity.
  - intros result [= <-]. eexists. reflexivity.
Defined.

(** [ping] never raises: whatever the exchange yields, an exception or
    any decoded body, it answers [True] or [False], and the client has
    advanced by one request.  It answers [False] when the exchange fails.
    On a decoded object body it answers [True] exactly when the body has no
    [error] key and its [result], if it has one, can be searched for
    [tools] and read: an object, a list with no element ["tools"], or a
    string that does not contain [tools]; any other result, [null]
    included, makes the server look unreachable.  On a decoded body that is
    no object it answers [True] only for a list or a string that holds
    neither [error] nor [result]. *)
Theorem ping_answers (requests_post_untimed : MCPClient.list_request -> res pyval)
    (repr : pyval -> string) (self : MCPClient.t) :
  (exists answer,
     MCPClient.ping requests_post_untimed repr self = (Ok answer, client_after_call self)) /\
  (forall e,
     requests_post_untimed (sent_list_request self) = Raise e ->
     MCPClient.ping requests_post_untimed repr self = (Ok false, client_after_call self)) /\
  (forall items,
     requests_post_untimed (sent_list_request self) = Ok (PDict items) ->
     MCPClient.ping requests_post_untimed repr self
     = (Ok (match dict_lookup items "error" with
            | Some _ => false
            | None =>
                match dict_lookup items "result" with
                | None => true
                | Some (PDict _) => true
                | Some (PList l) => negb (existsb (fun x => py_eq_str x "tools") l)
                | Some (PStr s) => negb (str_in "tools" s)
                | Some _ => false
                end
            end),
        client_after_call self)) /\
  (forall data,
     requests_post_untimed (sent_list_request self) = Ok data ->
     (forall items, data <> PDict items) ->
     MCPClient.ping requests_post_untimed repr self
     = (Ok (ping_on_plain_body data), client_after_call self)).
Proof.
  split; [|split; [|split]].
  - unfold MCPClient.ping, MCPClient.list_tools, MCPClient._get_next_request_id.
    cbn [MCPClient.request_id MCPClient.server_url MCPClient.api_key].
    fold (client_after_call self).
    destruct (try_except_clauses _ _) as [listed|e]; eexists; reflexivity.
  - intros e Hpost. unfold MCPClient.ping, MCPClient.list_tools, MCPClient._get_next_request_id.
    cbn [MCPClient.request_id MCPClient.server_url MCPClient.api_key].
    fold (sent_list_request self). rewrite Hpost. cbn [bind try_except_clauses].
    fold (client_after_call self).
    destruct (is_RequestException e); reflexivity.
  - intros items Hpost. unfold MCPClient.ping.
    rewrite (list_tools_with_body _ _ _ _ Hpost).
    unfold MCPClient.handle_list_response. cbn [py_str_in bind].
    destruct (dict_lookup items "error") as [error|] eqn:Herror.
    + rewrite (dict_lookup_present _ _ _ Herror).
      cbn [py_getitem_str]. rewrite Herror. cbn [bind].
      destruct error as [| | | | | |fields]; cbn [py_getitem_str bind];
        try reflexivity.
      destruct (dict_lookup fields "message"); reflexivity.
    + rewrite (dict_lookup_absent _ _ Herror).
      destruct (dict_lookup items "result") as [result|] eqn:Hresult.
      * rewrite (dict_lookup_present _ _ _ Hresult).
        cbn [py_getitem_str]. rewrite Hresult. cbn [bind].
        destruct result as [| | | |s|l|fields]; cbn [py_str_in bind]; try reflexivity.
        -- destruct (str_in "tools" s); cbn [negb]; [|reflexivity].
           cbn [bind py_getitem_str]. rewrite ?Hresult. reflexivity.
        -- destruct (existsb _ l); cbn [negb]; [|reflexivity].
           cbn [bind py_getitem_str]. rewrite ?Hresult. reflexivity.
        -- destruct (dict_lookup fields "tools") as [tools|] eqn:Htools.
           ++ rewrite (dict_lookup_present _ _ _ Htools). cbn [bind py_getitem_str].
              rewrite ?Hresult. cbn [bind py_getitem_str]. rewrite Htools. reflexivity.
           ++ rewrite (dict_lookup_absent _ _ Htools). reflexivity.
      * rewrite (dict_lookup_absent _ _ Hresult). reflexivity.
  - intros data Hpost Hplain. unfold MCPClient.ping.
    rewrite (list_tools_with_body _ _ _ _ Hpost).
    unfold MCPClient.handle_list_response, ping_on_plain_body.
    destruct data as [| | | |s|l|items]; cbn [py_str_in bind]; try reflexivity.
    + destruct (str_in "error" s); cbn [negb andb]; [reflexivity|].
      destruct (str_in "result" s); reflexivity.
    + destruct (existsb (fun x => py_eq_str x "error") l); cbn [negb andb]; [reflexivity|].
      destruct (existsb (fun x => py_eq_str x "result") l); reflexivity.
    + exfalso. exact (Hplain items eq_refl).
Qed.

(** A server that answers [{"result": null}] is reported unreachable, one
    that answers [{}] reachable. *)
Example ping_null_result :
  fst (MCPClient.ping (sample_post_untimed (Ok (PDict [("result", PNone)]))) sample_repr
         (MCPClient.__init__ "https://mcp.example/api/message" "key")) = Ok false.
Proof. vm_compute. reflexivity. Qed.

Example ping_empty_body :
  fst (MCPClient.ping (sample_post_untimed (Ok (PDict []))) sample_repr
         (MCPClient.__init__ "https://mcp.example/api/message" "key")) = Ok true.
Proof. vm_compute. reflexivity. Qed.

(** A server that answers the JSON text ["pong"] or [[]] passes for
    reachable, one that answers [null] or [["error"]] does not. *)
Example ping_plain_bodies :
  fst (MCPClient.ping (sample_post_untimed (Ok (PStr "pong"))) sample_repr
         (MCPClient.__init__ "https://mcp.example/api/message" "key")) = Ok true /\
  fst (MCPClient.ping (sample_post_untimed (Ok (PList []))) sample_repr
         (MCPClient.__init__ "https://mcp.example/api/message" "key")) = Ok true /\
  fst (MCPClient.ping (sample_post_untimed (Ok PNone)) sample_repr
         (MCPClient.__init__ "https://mcp.example/api/message" "key")) = Ok false /\
  fst (MCPClient.ping (sample_post_untimed (Ok (PList [PStr "error"]))) sample_repr
         (MCPClient.__init__ "https://mcp.example/api/message" "key")) = Ok false.
Proof. repeat split; vm_compute; reflexivity. Qed.

(** The request counter.  Every use of a client (a tool call, a listing, a
    ping) advances [request_id] by exactly one, whether the use returns or
    raises, so after a sequence of uses the counter has grown by their
    number; the URL and the API key never change. *)
Theorem request_counter_counts_uses (json_loads : string -> res pyval)
    (requests_post : MCPClient.http_request -> res pyval)
    (requests_post_untimed : MCPClient.list_request -> res pyval)
    (repr : pyval -> string) (uses : list client_use) (self : MCPClient.t) :
  MCPClient.request_id
    (client_after_uses json_loads requests_post requests_post_untimed repr self uses)
    = MCPClient.request_id self + Z.of_nat (length uses) /\
  MCPClient.server_url
    (client_after_uses json_loads requests_post requests_post_untimed repr self uses)
    = MCPClient.server_url self /\
  MCPClient.api_key
    (client_after_uses json_loads requests_post requests_post_untimed repr self uses)
    = MCPClient.api_key self.
Proof.
  unfold client_after_uses. revert self.
  induction uses as [|use uses IH]; intros self.
  - cbn [fold_left length]. repeat split. lia.
  - cbn [fold_left length].
    assert (Hstep : client_after_use json_loads requests_post requests_post_untimed repr
                      self use = client_after_call self).
    { destruct use; reflexivity. }
    rewrite Hstep. destruct (IH (client_after_call self)) as (Hid & Hurl & Hkey).
    rewrite Hid, Hurl, Hkey. cbn [client_after_call MCPClient.request_id
      MCPClient.server_url MCPClient.api_key]. repeat split. lia.
Qed.

(** ** The tool catalog, continued *)

(** What a tool of the catalog hands back when the underlying [call_tool]
    returns a value: the JSON text of a dict or a list, and [str(value)] of
    anything else, so that a missing result comes back as the text [None];
    should [json.dumps] raise, the error text replaces the result. *)
Theorem catalog_tool_formats_result (json_loads : string -> res pyval)
    (requests_post : MCPClient.http_request -> res pyval) (repr : pyval -> string)
    (json_dumps : pyval -> res string) (server_url api_key tool_name : string)
    (tool : MCPToolWrapper.Tool) (kwargs : list (string * pyval))
    (mcp_client : MCPClient.t) (value : pyval) :
  snd (MCPToolWrapper.wrap_mcp_tools json_loads requests_post repr json_dumps
         server_url api_key) !! tool_name = Some tool ->
  fst (MCPClient.call_tool json_loads requests_post repr mcp_client tool_name
         (PDict kwargs) 30) = Ok value ->
  fst (MCPToolWrapper.func tool kwargs mcp_client)
  = Ok (PStr (if MCPToolWrapper.is_dict_or_list value then
                match json_dumps value with
                | Ok text => text
                | Raise e => "Error executing " +:+ tool_name +:+ ": " +:+ exn_str e
                end
              else py_str repr value)).
Proof.
  intros Hlookup Hcalled.
  destruct (catalog_tools_call_their_name _ _ _ _ _ _ _ _ Hlookup) as [_ ->].
  unfold MCPToolWrapper.create_tool_func.
  destruct (MCPClient.call_tool json_loads requests_post repr mcp_client tool_name
              (PDict kwargs) 30) as [called mcp_client'].
  cbn [fst] in *. subst called. cbn [bind try_except].
  destruct (MCPToolWrapper.is_dict_or_list value); [|reflexivity].
  destruct (json_dumps value); reflexivity.
Qed.

(** A response with neither a result nor an error reaches the caller of
    the tool as the text [None]. *)
Lemma catalog_tool_formats_result_witness :
  exists tool,
    snd (MCPToolWrapper.wrap_mcp_tools (sample_loads [])
           (sample_post (Ok body_without_result_or_error)) sample_repr sample_dumps
           "https://mcp.example/api/message" "key") !! "find_users" = Some tool /\
    fst (MCPToolWrapper.func tool [("organization_id", PInt 100048)]
           (MCPClient.__init__ "https://mcp.example/api/message" "key"))
    = Ok (PStr "None").
Proof.
  exists (MCPToolWrapper.create_tool (sample_loads [])
            (sample_post (Ok body_without_result_or_error)) sample_repr sample_dumps
            "find_users"
            "Find users by organization. Args: organization_id (int). Returns: List of users with IDs, names, and roles.").
  assert (Hlookup :
    snd (MCPToolWrapper.wrap_mcp_tools (sample_loads [])
           (sample_post (Ok body_without_result_or_error)) sample_repr sample_dumps
           "https://mcp.example/api/message" "key") !! "find_users"
    = Some (MCPToolWrapper.create_tool (sample_loads [])
              (sample_post (Ok body_without_result_or_error)) sample_repr sample_dumps
              "find_users"
              "Find users by organization. Args: organization_id (int). Returns: List of users with IDs, names, and roles."))
    by (vm_compute; reflexivity).
  split; [exact Hlookup|].
  apply (catalog_tool_formats_result (sample_loads [])
           (sample_post (Ok body_without_result_or_error)) sample_repr sample_dumps
           "https://mcp.example/api/message" "key" "find_users" _
           [("organization_id", PInt 100048)]
           (MCPClient.__init__ "https://mcp.example/api/message" "key") PNone Hlookup).
  vm_compute. reflexivity.
Defined.

Lemma dict_literal_fold_lookup_other (items : list (string * MCPToolWrapper.Tool))
    (m : gmap string MCPToolWrapper.Tool) (key : string) :
  ~ In key (map fst items) ->
  fold_left (fun m item => <[fst item := snd item]> m) items m !! key = m !! key.
Proof.
  revert m. induction items as [|[k v] items IH]; intros m Hfresh; cbn [fold_left fst snd].
  - reflexivity.
  - cbn [map fst In] in Hfresh.
    rewrite IH by tauto.
    apply lookup_insert_ne. intros ->. apply Hfresh. left. reflexivity.
Qed.

(** A dict literal with distinct keys holds every item under its key. *)
Lemma dict_literal_lookup (items : list (string * MCPToolWrapper.Tool))
    (key : string) (tool : MCPToolWrapper.Tool) :
  List.NoDup (map fst items) -> In (key, tool) items ->
  MCPToolWrapper.dict_literal items !! key = Some tool.
Proof.
  unfold MCPToolWrapper.dict_literal. generalize (∅ : gmap string MCPToolWrapper.Tool).
  induction items as [|[k v] items IH]; intros m Hnodup Hin; [destruct Hin|].
  cbn [map fst] in Hnodup. apply List.NoDup_cons_iff in Hnodup as [Hfresh Hnodup].
  cbn [fold_left fst snd]. destruct Hin as [[= -> ->]|Hin].
  - rewrite dict_literal_fold_lookup_other by exact Hfresh.
    apply lookup_insert_eq.
  - apply IH; assumption.
Qed.

Lemma catalog_names_distinct (json_loads : string -> res pyval)
    (requests_post : MCPClient.http_request -> res pyval) (repr : pyval -> string)
    (json_dumps : pyval -> res string) :
  List.NoDup (map fst (MCPToolWrapper.catalog_items json_loads requests_post repr json_dumps)).
Proof.
  apply NoDup_ListNoDup. apply (bool_decide_unpack _). vm_compute. reflexivity.
Qed.

Lemma catalog_getitem (json_loads : string -> res pyval)
    (requests_post : MCPClient.http_request -> res pyval) (repr : pyval -> string)
    (json_dumps : pyval -> res string) (server_url api_key key : string)
    (tool : MCPToolWrapper.Tool) :
  In (key, tool) (MCPToolWrapper.catalog_items json_loads requests_post repr json_dumps) ->
  MCPToolWrapper.tools_getitem
    (snd (MCPToolWrapper.wrap_mcp_tools json_loads requests_post repr json_dumps
            server_url api_key)) key = Ok tool.
Proof.
  intros Hin. unfold MCPToolWrapper.tools_getitem. cbn [snd MCPToolWrapper.wrap_mcp_tools].
  rewrite (dict_literal_lookup _ key tool); [reflexivity| |exact Hin].
  apply catalog_names_distinct.
Qed.

Lemma bind_Ok {A B : Type} (a : A) (k : A -> res B) : bind (Ok a) k = k a.
Proof. reflexivity. Qed.

(** Membership in a list that is written out: the first position that
    matches. *)
Ltac in_written_list := repeat first [left; reflexivity | right].

(** [get_tools_by_category] on the catalog of [wrap_mcp_tools]: it raises
    nothing and returns the seven categories in the order of its literal;
    the names it groups are the keys of the catalog, each exactly once, and
    every tool it groups is the catalog's tool of that name. *)
Theorem get_tools_by_category_partitions_catalog (json_loads : string -> res pyval)
    (requests_post : MCPClient.http_request -> res pyval) (repr : pyval -> string)
    (json_dumps : pyval -> res string) (server_url api_key : string) :
  exists categories,
    MCPToolWrapper.get_tools_by_category
      (snd (MCPToolWrapper.wrap_mcp_tools json_loads requests_post repr json_dumps
              server_url api_key)) = Ok categories /\
    map fst categories
      = [ "campaign_management"; "strategy_management"; "audience_management";
          "creative_management"; "organization_management"; "user_management";
          "supply_management" ] /\
    Permutation (categorized_names categories)
      (map fst (MCPToolWrapper.catalog_items json_loads requests_post repr json_dumps)) /\
    (forall category tool,
       In category categories -> In tool (snd category) ->
       snd (MCPToolWrapper.wrap_mcp_tools json_loads requests_post repr json_dumps
              server_url api_key) !! MCPToolWrapper.name tool = Some tool).
Proof.
  eexists. split.
  { unfold MCPToolWrapper.get_tools_by_category.
    repeat (erewrite catalog_getitem
              by (unfold MCPToolWrapper.catalog_items; in_written_list);
            rewrite bind_Ok; cbv beta).
    reflexivity. }
  split; [reflexivity|]. split.
  - cbn [categorized_names concat map snd app MCPToolWrapper.name
         MCPToolWrapper.create_tool MCPToolWrapper.catalog_items fst].
    apply (bool_decide_unpack _). vm_compute. reflexivity.
  - intros category tool Hcategory Htool.
    cbn [snd MCPToolWrapper.wrap_mcp_tools].
    apply dict_literal_lookup; [apply catalog_names_distinct|].
    cbn [In] in Hcategory.
    repeat (destruct Hcategory as [<-|Hcategory];
            [cbn [snd In] in Htool;
             repeat (destruct Htool as [<-|Htool];
                     [unfold MCPToolWrapper.catalog_items; in_written_list|]);
             destruct Htool|]).
    destruct Hcategory.
Qed.

(** A catalog that lacks one of the 28 names makes
    [get_tools_by_category] raise [KeyError]; it returns no partial
    grouping. *)
Theorem get_tools_by_category_missing_tool (json_loads : string -> res pyval)
    (requests_post : MCPClient.http_request -> res pyval) (repr : pyval -> string)
    (json_dumps : pyval -> res string)
    (tools : gmap string MCPToolWrapper.Tool) (tool_name : string) :
  In tool_name
     (map fst (MCPToolWrapper.catalog_items json_loads requests_post repr json_dumps)) ->
  tools !! tool_name = None ->
  exists e,
    MCPToolWrapper.get_tools_by_category tools = Raise e /\
    exn_class_of e = KeyError.
Proof.
  intros Hname Hmissing. unfold MCPToolWrapper.get_tools_by_category.
  repeat (match goal with
          | |- context [MCPToolWrapper.tools_getitem tools ?key] =>
              unfold MCPToolWrapper.tools_getitem at 1;
              destruct (tools !! key) eqn:?;
              [rewrite bind_Ok; cbv beta|eexists; split; reflexivity]
          end).
  exfalso. cbn [map fst MCPToolWrapper.catalog_items In] in Hname.
  repeat (destruct Hname as [<-|Hname];
          [match goal with
           | Hsome : tools !! ?key = Some _, Hnone : tools !! ?key = None |- _ =>
               rewrite Hsome in Hnone; discriminate Hnone
           end|]).
  destruct Hname.
Qed.

Lemma get_tools_by_category_missing_tool_witness :
  exists e,
    MCPToolWrapper.get_tools_by_category
      (delete "delete_campaign"
         (snd (MCPToolWrapper.wrap_mcp_tools (sample_loads []) (sample_post (Ok PNone))
                 sample_repr sample_dumps "https://mcp.example/api/message" "key")))
    = Raise e /\
    exn_class_of e = KeyError.
Proof.
  apply (get_tools_by_category_missing_tool (sample_loads []) (sample_post (Ok PNone))
           sample_repr sample_dumps _ "delete_campaign").
  - cbn [map fst MCPToolWrapper.catalog_items]. in_written_list.
  - apply lookup_delete_eq.
Defined.

Lemma dict_literal_lookup_in (items : list (string * MCPToolWrapper.Tool))
    (key : string) (tool : MCPToolWrapper.Tool) :
  MCPToolWrapper.dict_literal items !! key = Some tool -> In (key, tool) items.
Proof.
  revert key tool.
  apply (dict_literal_forall (fun key tool => In (key, tool) items)).
  apply List.Forall_forall. intros [key tool] Hin. exact Hin.
Qed.

(** The catalog of [wrap_mcp_tools] has exactly the 28 keys of its dict
    literal, all distinct, and every tool is registered under its own
    [name] with a non-empty description. *)
Theorem catalog_has_28_named_tools (json_loads : string -> res pyval)
    (requests_post : MCPClient.http_request -> res pyval) (repr : pyval -> string)
    (json_dumps : pyval -> res string) (server_url api_key : string) :
  length (MCPToolWrapper.catalog_items json_loads requests_post repr json_dumps) = 28%nat /\
  List.NoDup (map fst (MCPToolWrapper.catalog_items json_loads requests_post repr json_dumps)) /\
  (forall key,
     (exists tool,
        snd (MCPToolWrapper.wrap_mcp_tools json_loads requests_post repr json_dumps
               server_url api_key) !! key = Some tool) <->
     In key (map fst (MCPToolWrapper.catalog_items json_loads requests_post repr json_dumps))) /\
  (forall key tool,
     snd (MCPToolWrapper.wrap_mcp_tools json_loads requests_post repr json_dumps
            server_url api_key) !! key = Some tool ->
     MCPToolWrapper.name tool = key /\ MCPToolWrapper.description tool <> "").
Proof.
  split; [reflexivity|]. split; [apply catalog_names_distinct|]. split.
  - intros key. cbn [snd MCPToolWrapper.wrap_mcp_tools]. split.
    + intros [tool Hlookup]. apply dict_literal_lookup_in in Hlookup.
      apply (in_map fst) in Hlookup. exact Hlookup.
    + intros Hkey. apply in_map_iff in Hkey as ([key' tool] & Hfst & Hin).
      cbn [fst] in Hfst. subst key'. exists tool.
      apply dict_literal_lookup; [apply catalog_names_distinct|exact Hin].
  - intros key tool Hlookup.
    split; [apply (catalog_tools_call_their_name _ _ _ _ _ _ _ _ Hlookup)|].
    cbn [snd MCPToolWrapper.wrap_mcp_tools] in Hlookup.
    apply dict_literal_lookup_in in Hlookup.
    unfold MCPToolWrapper.catalog_items in Hlookup. cbn [In] in Hlookup.
    repeat (destruct Hlookup as [[= <- <-]|Hlookup]; [discriminate|]).
    destruct Hlookup.
Qed.

(** The tools of one catalog share one client: every invocation of a tool
    of the catalog, whatever it returns, advances the request counter of
    that client by one, so a sequence of invocations leaves the counter
    increased by the number of invocations. *)
Theorem catalog_tools_share_request_counter (json_loads : string -> res pyval)
    (requests_post : MCPClient.http_request -> res pyval) (repr : pyval -> string)
    (json_dumps : pyval -> res string) (server_url api_key : string)
    (calls : list (MCPToolWrapper.Tool * list (string * pyval)))
    (mcp_client : MCPClient.t) :
  (forall call, In call calls ->
     exists tool_name,
       snd (MCPToolWrapper.wrap_mcp_tools json_loads requests_post repr json_dumps
              server_url api_key) !! tool_name = Some (fst call)) ->
  MCPClient.request_id (client_after_tools calls mcp_client)
  = MCPClient.request_id mcp_client + Z.of_nat (length calls).
Proof.
  unfold client_after_tools. revert mcp_client.
  induction calls as [|[tool kwargs] calls IH]; intros mcp_client Hcatalog.
  - cbn [fold_left length]. lia.
  - cbn [fold_left length fst snd].
    destruct (Hcatalog (tool, kwargs)) as [tool_name Hlookup]; [left; reflexivity|].
    cbn [fst] in Hlookup.
    destruct (catalog_tools_call_their_name _ _ _ _ _ _ _ _ Hlookup) as [_ Hfunc].
    rewrite IH by (intros call Hin; apply Hcatalog; right; exact Hin).
    rewrite Hfunc. unfold MCPToolWrapper.create_tool_func, MCPClient.call_tool,
      MCPClient._get_next_request_id.
    cbn [snd MCPClient.request_id]. lia.
Qed.

Lemma catalog_tools_share_request_counter_witness :
  MCPClient.request_id
    (client_after_tools
       [ (MCPToolWrapper.create_tool (sample_loads [])
            (sample_post (Raise (new_exn RequestException "connection refused")))
            sample_repr sample_dumps "find_organizations"
            "Find all organizations accessible to the user. Args: None. Returns: List of organizations with IDs and names.",
          []);
         (MCPToolWrapper.create_tool (sample_loads [])
            (sample_post (Raise (new_exn RequestException "connection refused")))
            sample_repr sample_dumps "find_users"
            "Find users by organization. Args: organization_id (int). Returns: List of users with IDs, names, and roles.",
          [("organization_id", PInt 100048)]) ]
       (MCPClient.__init__ "https://mcp.example/api/message" "key"))
  = 0 + 2.
Proof.
  apply (catalog_tools_share_request_counter (sample_loads [])
           (sample_post (Raise (new_exn RequestException "connection refused")))
           sample_repr sample_dumps "https://mcp.example/api/message" "key").
  intros call [<-|[<-|[]]]; cbn [fst].
  - exists "find_organizations". cbn [snd MCPToolWrapper.wrap_mcp_tools].
    apply dict_literal_lookup; [apply catalog_names_distinct|].
    unfold MCPToolWrapper.catalog_items. in_written_list.
  - exists "find_users". cbn [snd MCPToolWrapper.wrap_mcp_tools].
    apply dict_literal_lookup; [apply catalog_names_distinct|].
    unfold MCPToolWrapper.catalog_items. in_written_list.
Defined.
